(** * plugin-virtuals-acp: the ACP service adapter

    A shallow embedding of [src/service.ts] and [src/helper.ts]: the job-type
    registry, the job router ([handleNewTask]), the Eliza delegation path
    ([processJobWithEliza], [processJobWithElizaAI]), the connection
    bootstrap ([setupClient], [setupClientWithRetry], [start]) and the
    forwarding queries.

    The service is effectful TypeScript.  Its mutable fields and everything it
    does to the outside world are threaded through an explicit [State]; each
    [async] method becomes a computation in the monad [M], whose outcome is a
    normal return, a thrown value, or a promise that never settles.  The
    external collaborators (the acp-node client, the job object's methods, the
    agent runtime, the handler closures stored in the registry) are an
    environment [Env] of oracles that may answer differently depending on
    everything that happened before. *)

From stdpp Require Import base option gmap strings pretty list fin_maps.

Open Scope string_scope.
Open Scope list_scope.

(** ** Values supplied by the libraries *)

(** [AcpJobPhases] is declared by acp-node; the service only compares its
    members. *)
Inductive AcpJobPhases :=
| REQUEST | NEGOTIATION | TRANSACTION | EVALUATION
| COMPLETED | REJECTED | EXPIRED.

#[global] Instance AcpJobPhases_eq_dec : EqDecision AcpJobPhases.
Proof. solve_decision. Defined.

(** A thrown JavaScript value: an [Error] instance with its message, or any
    other value, kept through what [String(error)] gives for it. *)
Inductive Thrown :=
| ErrorObj (message : string)
| NonError (rendering : string).

#[global] Instance Thrown_eq_dec : EqDecision Thrown.
Proof. solve_decision. Defined.

(** [error instanceof Error ? error.message : String(error)] *)
Definition error_text (error : Thrown) : string :=
  match error with
  | ErrorObj message => message
  | NonError rendering => rendering
  end.

(** A function value is a reference to a closure; what the closure does when
    called is given by the environment ([apply_handler] below). *)
Definition FunRef := nat.

(** ** types.ts *)

(** [JobHandlerType] is the string-literal union ["eliza" | "predetermined"];
    at run time the field holds a string, and [updateJobTypeRegistry] accepts
    [Record<string, any>], so other strings can be stored. *)
Record JobTypeConfig := {
  handlerType : string;
  handler : option FunRef;
}.

#[global] Instance JobTypeConfig_eq_dec : EqDecision JobTypeConfig.
Proof. solve_decision. Defined.

(** [AcpServiceConfig]; the constructor takes a [Partial] of it, so the
    field itself may be missing. *)
Record PartialAcpServiceConfig := {
  cfg_jobTypeRegistry : option (gmap string JobTypeConfig);
}.

(** ** helper.ts *)

Definition createDefaultJobTypeRegistry : gmap string JobTypeConfig := ∅.

(** ** Object spread and property access *)

(** [{...a, ...b}]: the own properties of [a], then those of [b] written over
    them, each as a whole value. *)
Definition spread2 (a b : gmap string JobTypeConfig) : gmap string JobTypeConfig :=
  b ∪ a.

(** The registry is built by object literals, so its prototype is
    [Object.prototype]; [registry[key]] on a key that is not an own property
    finds the members of that prototype. *)
Definition object_prototype_members : list string :=
  [ "constructor"; "__defineGetter__"; "__defineSetter__"; "hasOwnProperty";
    "__lookupGetter__"; "__lookupSetter__"; "isPrototypeOf";
    "propertyIsEnumerable"; "toString"; "valueOf"; "__proto__";
    "toLocaleString" ].

Inductive PropertyValue :=
| Undefined
| PrototypeMember                  (* a built-in function or Object.prototype itself *)
| OwnEntry (config : JobTypeConfig).

Definition get_property (registry : gmap string JobTypeConfig) (key : string)
  : PropertyValue :=
  match registry !! key with
  | Some config => OwnEntry config
  | None =>
      if bool_decide (key ∈ object_prototype_members)
      then PrototypeMember else Undefined
  end.

(** ** The service's registry field *)

(** The constructor's
    [{...createDefaultJobTypeRegistry(), ...(config?.jobTypeRegistry || {})}]. *)
Definition constructor_registry (config : option PartialAcpServiceConfig)
  : gmap string JobTypeConfig :=
  spread2 createDefaultJobTypeRegistry
    (default ∅ (config ≫= cfg_jobTypeRegistry)).

(** The assignment of [updateJobTypeRegistry], on the registry alone. *)
Definition merge_registry (current update : gmap string JobTypeConfig)
  : gmap string JobTypeConfig :=
  spread2 current update.

(** ** The service and its surroundings *)

Section Service.

(** JavaScript numbers and the payloads the libraries hand over (accounts,
    job lists, requirements, the contract client) are opaque to the service:
    it only passes them on. *)
Context {JsNumber JsValue : Type}.

(** The fields of acp-node's [AcpJob] and [AcpMemo] that the service reads. *)
Record AcpJob := {
  job_id : JsNumber;
  job_phase : AcpJobPhases;
  job_name : option string;            (* undefined when the job has no name *)
  job_requirement : JsValue;
  job_clientAddress : string;
}.

Record AcpMemo := {
  memo_id : JsNumber;
  memo_nextPhase : AcpJobPhases;
  memo_type : JsValue;
  memo_content : string;
}.

(** The runtime's [Content]: only [text] is inspected. *)
Record Content := {
  content_text : option string;
}.

(** [{ type: "text", value: content.text }] *)
Record Deliverable := {
  deliverable_type : string;
  deliverable_value : string;
}.

(** Methods of the acp-node client that the service forwards to. *)
Inductive ClientCall :=
| GetActiveJobs (page pageSize : option JsNumber)
| GetCompletedJobs (page pageSize : option JsNumber)
| GetCancelledJobs (page pageSize : option JsNumber)
| GetPendingMemoJobs (page pageSize : option JsNumber)
| GetJobById (jobId : JsNumber)
| GetMemoById (jobId memoId : JsNumber)
| GetAccountByJobId (jobId : JsNumber)
| GetByClientAndProvider (clientAddress providerAddress : string).

(** Methods of the job object that the Eliza path calls. *)
Inductive JobCall :=
| Accept (reason : string)
| CreateRequirement (content : string)
| Reject (reason : string)
| Deliver (deliverable : Deliverable).

Inductive Logger := logger | elizaLogger.
Inductive LogLevel := Log | Info | Success | Warn | Error.

(** A log message.  Template literals that interpolate strings are expanded
    into [Text]; the ones that print library values keep those values. *)
Inductive LogMsg :=
| Text (text : string)
| OnNewTaskDebug (job : AcpJob) (memoToSign : option AcpMemo)
| JobAccountDebug (account : JsValue)
| UnhandledPhase (jobIdStr : string) (phase : AcpJobPhases)
    (nextPhase : option AcpJobPhases).

(** Everything the service does that can be observed from outside, in the
    order it happens.  The memory objects given to the runtime are functions
    of the job and memo, which the events carry. *)
Inductive Event :=
| EvLog (who : Logger) (level : LogLevel) (msg : LogMsg) (error : option Thrown)
| EvClient (call : ClientCall)
| EvJob (jobId : JsNumber) (call : JobCall)
| EvEnsureConnection (job : AcpJob)
| EvEmitMessageReceived (job : AcpJob) (memoToSign : option AcpMemo)
| EvCreateMemory (jobIdStr text : string)
| EvCreateAcpContractClient (privateKey entityId agentAddress : string)
| EvNewAcpClient
| EvSleep (ms : Z).

(** The service object: [jobConfig.jobTypeRegistry], whether [client] has
    been assigned, and the history of events. *)
Record State := {
  jobTypeRegistry : gmap string JobTypeConfig;
  client : bool;
  trace : list Event;
}.

Definition with_trace (tr : list Event) (st : State) : State :=
  {| jobTypeRegistry := jobTypeRegistry st; client := client st; trace := tr |}.

Definition with_registry (registry : gmap string JobTypeConfig) (st : State) : State :=
  {| jobTypeRegistry := registry; client := client st; trace := trace st |}.

Definition with_client (st : State) : State :=
  {| jobTypeRegistry := jobTypeRegistry st; client := true; trace := trace st |}.

(** How an awaited call ends. *)
Inductive Outcome (A : Type) :=
| Returned (value : A)
| Raised (error : Thrown)
| Pending.                              (* the promise never settles *)

#[global] Arguments Returned {A} value.
#[global] Arguments Raised {A} error.
#[global] Arguments Pending {A}.

Definition M (A : Type) : Type := State → Outcome A * State.

#[global] Instance M_ret : MRet M := λ A a st, (Returned a, st).

#[global] Instance M_bind : MBind M := λ A B f m st,
  match m st with
  | (Returned a, st') => f a st'
  | (Raised error, st') => (Raised error, st')
  | (Pending, st') => (Pending, st')
  end.

Definition throw {A} (error : Thrown) : M A := λ st, (Raised error, st).

Definition never {A} : M A := λ st, (Pending, st).

(** [try { body } catch (error) { handle }] *)
Definition try_catch {A} (body : M A) (handle : Thrown → M A) : M A := λ st,
  match body st with
  | (Raised error, st') => handle error st'
  | settled => settled
  end.

Definition record (ev : Event) : M unit := λ st,
  (Returned tt, with_trace (trace st ++ [ev]) st).

Definition log (who : Logger) (level : LogLevel) (msg : LogMsg)
    (error : option Thrown) : M unit :=
  record (EvLog who level msg error).

(** A call that leaves the service: the call is recorded and the outside
    answers, knowing the history up to the call. *)
Definition external {A} (ev : Event) (answer : list Event → Outcome A) : M A := λ st,
  (answer (trace st), with_trace (trace st ++ [ev]) st).

(** What a reply from the inference pipeline looks like from the executor of
    the promise in [processJobWithElizaAI]: [emitEvent] throws, the callback
    is never called, or it is called once with a content. *)
Inductive Pipeline :=
| EmitThrows (error : Thrown)
| NoReply
| Reply (content : Content).

(** The collaborators.  [js_String] and [js_Number] are the built-in
    coercions [String(_)] and [Number(_)]. *)
Record Env := {
  js_String : JsNumber → string;
  js_Number : string → JsNumber;
  getSetting : string → option string;
  client_answer : list Event → ClientCall → Outcome JsValue;
  job_answer : list Event → AcpJob → JobCall → Outcome unit;
  ensureConnection_answer : list Event → AcpJob → Outcome unit;
  pipeline_answer : list Event → AcpJob → option AcpMemo → Pipeline;
  createMemory_answer : list Event → string → string → Outcome unit;
  createAcpContractClient_answer :
    list Event → string → string → string → Outcome JsValue;
  newAcpClient_answer : list Event → JsValue → Outcome unit;
  apply_handler : FunRef → AcpJob → option AcpMemo → M unit;
}.

Variable env : Env.

(** A value interpolated into a template literal. *)
Definition interpolate (s : option string) : string := default "undefined" s.

(** Truthiness of a setting or of a string that may be undefined. *)
Definition truthy (s : option string) : bool :=
  match s with
  | Some text => negb (bool_decide (text = ""))
  | None => false
  end.

(** *** Forwarding queries *)

(** [this.client.method(...)]: reading a method off an unassigned [client]
    throws a [TypeError] (V8's wording). *)
Definition client_call (method : string) (call : ClientCall) : M JsValue := λ st,
  if client st
  then external (EvClient call) (λ tr, client_answer env tr call) st
  else (Raised (ErrorObj ("Cannot read properties of undefined (reading '"
                          +:+ method +:+ "')")), st).

(** The body shared by the forwarding methods:
    [try { return await this.client.method(...) }
     catch (error) { logger.error(message, error); throw error }]. *)
Definition forward (method : string) (call : ClientCall) (message : string)
  : M JsValue :=
  try_catch (client_call method call)
    (λ error, log logger Error (Text message) (Some error) ;; throw error).

Definition getActiveJobs (page pageSize : option JsNumber) : M JsValue :=
  forward "getActiveJobs" (GetActiveJobs page pageSize)
    "Error getting active jobs:".

Definition getCompletedJobs (page pageSize : option JsNumber) : M JsValue :=
  forward "getCompletedJobs" (GetCompletedJobs page pageSize)
    "Error getting completed jobs:".

Definition getCancelledJobs (page pageSize : option JsNumber) : M JsValue :=
  forward "getCancelledJobs" (GetCancelledJobs page pageSize)
    "Error getting cancelled jobs:".

Definition getPendingMemoJobs (page pageSize : option JsNumber) : M JsValue :=
  forward "getPendingMemoJobs" (GetPendingMemoJobs page pageSize)
    "Error getting pending memo jobs:".

Definition getJobById (jobId : string) : M JsValue :=
  forward "getJobById" (GetJobById (js_Number env jobId))
    "Error getting job by ID:".

Definition getMemoById (jobId memoId : string) : M JsValue :=
  forward "getMemoById"
    (GetMemoById (js_Number env jobId) (js_Number env memoId))
    "Error getting memo by ID:".

Definition getAccountByJobId (jobId : string) : M JsValue :=
  forward "getAccountByJobId" (GetAccountByJobId (js_Number env jobId))
    "Error getting account by job ID:".

Definition getByClientAndProvider (clientAddress providerAddress : string)
  : M JsValue :=
  forward "getByClientAndProvider"
    (GetByClientAndProvider clientAddress providerAddress)
    "Error getting account by addresses:".

(** [updateJobTypeRegistry] *)
Definition updateJobTypeRegistry (registry : gmap string JobTypeConfig) : M unit :=
  (λ st, (Returned tt,
          with_registry (merge_registry (jobTypeRegistry st) registry) st)) ;;
  log logger Info (Text "Job type registry updated") None.

(** *** The Eliza delegation path *)

Definition job_call (job : AcpJob) (call : JobCall) : M unit :=
  external (EvJob (job_id job) call) (λ tr, job_answer env tr job call).

(** [checkElizaCapability]: accepts every job. *)
Definition checkElizaCapability (job : AcpJob) : M bool := mret true.

(** The reply callback built in [processJobWithElizaAI]; the result is the
    value it passes to [resolve]. *)
Definition reply_callback (jobIdStr : string) (content : Content)
  : M (option Deliverable) :=
  try_catch
    (if truthy (content_text content) then
       let text := default "" (content_text content) in
       let deliverable :=
         {| deliverable_type := "text"; deliverable_value := text |} in
       external (EvCreateMemory jobIdStr text)
         (λ tr, createMemory_answer env tr jobIdStr text) ;;
       mret (Some deliverable)
     else mret None)
    (λ error,
       log elizaLogger Error (Text "Error in Eliza callback") (Some error) ;;
       mret None).

(** [processJobWithElizaAI]: [ensureConnection] is awaited, then the promise
    is created; its executor emits MESSAGE_RECEIVED and the promise resolves
    with what the reply callback passes to [resolve].  A throw inside the
    executor rejects the promise. *)
Definition processJobWithElizaAI (job : AcpJob) (memoToSign : option AcpMemo)
  : M (option Deliverable) :=
  let jobIdStr := js_String env (job_id job) in
  external (EvEnsureConnection job) (λ tr, ensureConnection_answer env tr job) ;;
  reply ← (λ st, (Returned (pipeline_answer env (trace st) job memoToSign),
                  with_trace (trace st ++ [EvEmitMessageReceived job memoToSign]) st)) ;
  match reply with
  | EmitThrows error => throw error
  | NoReply => never
  | Reply content => reply_callback jobIdStr content
  end.

(** The body of [processJobWithEliza].  [this.checkElizaCapability] is looked
    up on the receiver when called, so the body is given for any capability
    check. *)
Definition processJobWithEliza_with (checkCapability : AcpJob → M bool)
    (job : AcpJob) (memoToSign : option AcpMemo) : M unit :=
  try_catch
    (let jobPhase := job_phase job in
     let jobIdStr := js_String env (job_id job) in
     let nextPhase := memo_nextPhase <$> memoToSign in
     if bool_decide (jobPhase = REQUEST ∧ nextPhase = Some NEGOTIATION) then
       log logger Info
         (Text ("[Eliza ACP] REQUEST phase for job " +:+ jobIdStr
                +:+ ", routing to Eliza for capability check")) None ;;
       canHandle ← checkCapability job ;
       if canHandle : bool then
         job_call job (Accept "Job requirement matches agent capability") ;;
         job_call job
           (CreateRequirement
              ("Job " +:+ jobIdStr +:+ " accepted, please make payment to proceed")) ;;
         log logger Success
           (Text ("[Eliza ACP] Job " +:+ jobIdStr
                  +:+ " accepted and requirement created")) None
       else
         job_call job (Reject "Job requirement does not meet agent capability") ;;
         log logger Warn
           (Text ("[Eliza ACP] Job " +:+ jobIdStr
                  +:+ " rejected by capability check")) None
     else if bool_decide (jobPhase = TRANSACTION ∧ nextPhase = Some EVALUATION) then
       log logger Info
         (Text ("[Eliza ACP] TRANSACTION phase for job " +:+ jobIdStr
                +:+ ", processing with Eliza")) None ;;
       deliverable ← processJobWithElizaAI job memoToSign ;
       match deliverable with
       | Some payload =>
           job_call job (Deliver payload) ;;
           log logger Success
             (Text ("[Eliza ACP] Job " +:+ jobIdStr +:+ " delivered")) None
       | None =>
           job_call job (Reject "Unable to process job requirement") ;;
           log logger Error
             (Text ("[Eliza ACP] Job " +:+ jobIdStr
                    +:+ " rejected - no deliverable")) None
       end
     else
       log logger Warn (UnhandledPhase jobIdStr jobPhase nextPhase) None)
    (λ error,
       log elizaLogger Error (Text "Error in processJobWithEliza") (Some error)).

Definition processJobWithEliza : AcpJob → option AcpMemo → M unit :=
  processJobWithEliza_with checkElizaCapability.

(** *** The job router *)

(** [handleNewTask].  [jobTypeConfig] is [null] for a falsy [jobName] and the
    property read otherwise; [null] and [undefined] are both falsy, so one
    constructor stands for them. *)
Definition handleNewTask (job : AcpJob) (memoToSign : option AcpMemo) : M unit :=
  let jobId := job_id job in
  let jobName := job_name job in
  log logger Info (OnNewTaskDebug job memoToSign) None ;;
  account ← getAccountByJobId (js_String env jobId) ;
  log logger Info (JobAccountDebug account) None ;;
  registry ← (λ st, (Returned (jobTypeRegistry st), st)) ;
  let jobTypeConfig :=
    if truthy jobName then get_property registry (default "" jobName)
    else Undefined in
  match jobTypeConfig with
  | Undefined =>
      log logger Warn
        (Text ("[handleNewTask] No configuration found for job type: "
               +:+ interpolate jobName)) None
  | PrototypeMember =>
      (* truthy, and its handlerType is undefined: neither branch *)
      mret tt
  | OwnEntry config =>
      if bool_decide (handlerType config = "predetermined") then
        match handler config with
        | Some f =>
            try_catch (apply_handler env f job memoToSign)
              (λ error,
                 log logger Error
                   (Text ("[handleNewTask] Error in predetermined handler for "
                          +:+ interpolate jobName +:+ ":")) (Some error))
        | None =>
            log logger Warn
              (Text ("[handleNewTask] No handler function provided for predetermined job type: "
                     +:+ interpolate jobName)) None
        end
      else if bool_decide (handlerType config = "eliza") then
        processJobWithEliza job memoToSign
      else mret tt
  end.

(** *** Connection bootstrap *)

Definition ACP_SERVICE_NAME : string := "virtuals-acp".

(** [setupClient] *)
Definition setupClient : M unit :=
  let privateKey := getSetting env "ACP_WALLET_PRIVATE_KEY" in
  let entityId := getSetting env "ACP_ENTITY_ID" in
  let agentAddress := getSetting env "ACP_AGENT_WALLET_ADDRESS" in
  if negb (truthy privateKey) then
    throw (ErrorObj "ACP_WALLET_PRIVATE_KEY is required")
  else if negb (truthy entityId) then
    throw (ErrorObj "ACP_ENTITY_ID is required")
  else if negb (truthy agentAddress) then
    throw (ErrorObj "ACP_AGENT_WALLET_ADDRESS is required")
  else
    let pk := default "" privateKey in
    let eid := default "" entityId in
    let addr := default "" agentAddress in
    acpContractClient ←
      external (EvCreateAcpContractClient pk eid addr)
        (λ tr, createAcpContractClient_answer env tr pk eid addr) ;
    external EvNewAcpClient (λ tr, newAcpClient_answer env tr acpContractClient) ;;
    (λ st, (Returned tt, with_client st)) ;;
    log logger Success (Text "ACP client created successfully") None.

(** [Math.pow(2, i) * 1000] *)
Definition backoff_delay (i : nat) : Z := (2 ^ Z.of_nat i * 1000)%Z.

(** The [for] loop of [setupClientWithRetry] over the remaining values of
    [i].  A [return] inside [try] leaves the method; a [throw] inside [catch]
    leaves it with the error. *)
Fixpoint setupClientWithRetry_loop (maxRetries : nat) (indices : list nat)
  : M unit :=
  match indices with
  | [] => mret tt
  | i :: rest =>
      try_catch
        (setupClient ;;
         log logger Info (Text "ACP client connected successfully") None)
        (λ error,
           log logger Error
             (Text ("ACP client connection attempt " +:+ pretty (i + 1)
                    +:+ " failed:")) (Some error) ;;
           if bool_decide (i < maxRetries - 1) then
             let delay := backoff_delay i in
             log logger Info
               (Text ("Retrying in " +:+ pretty delay +:+ "ms...")) None ;;
             record (EvSleep delay) ;;
             setupClientWithRetry_loop maxRetries rest
           else throw error)
  end.

Definition setupClientWithRetry (maxRetries : nat) : M unit :=
  setupClientWithRetry_loop maxRetries (seq 0 maxRetries).

(** The default value of the parameter, [maxRetries = 3]. *)
Definition default_maxRetries : nat := 3.

(** The object [new AcpService(runtime, config)] gives. *)
Definition new_AcpService (config : option PartialAcpServiceConfig)
    (history : list Event) : State :=
  {| jobTypeRegistry := constructor_registry config;
     client := false;
     trace := history |}.

(** [AcpService.start]; on a normal return the final state is the service
    that is returned. *)
Definition start (config : option PartialAcpServiceConfig)
    (history : list Event) : Outcome unit * State :=
  let service :=
    new_AcpService config
      (history ++ [EvLog logger Log (Text "Constructing new AcpService...") None]) in
  try_catch
    (setupClientWithRetry default_maxRetries ;;
     log logger Success (Text "✅✅✅ ACP service started successfully") None)
    (λ error,
       log logger Error (Text "❌❌❌Failed to start ACP service:") (Some error) ;;
       throw (ErrorObj ("Failed to register service " +:+ ACP_SERVICE_NAME
                        +:+ ": " +:+ error_text error)))
    service.

End Service.

(** ** Reading a history *)

Section Observing.

Context {JsNumber JsValue : Type}.

#[local] Abbreviation Event := (@Event JsNumber JsValue).
#[local] Abbreviation State := (@State JsNumber JsValue).
#[local] Abbreviation Env := (@Env JsNumber JsValue).
#[local] Abbreviation AcpJob := (@AcpJob JsNumber JsValue).
#[local] Abbreviation AcpMemo := (@AcpMemo JsNumber JsValue).
#[local] Abbreviation M := (@M JsNumber JsValue).

(** The calls made on job objects, in order. *)
Fixpoint job_calls (tr : list Event) : list JobCall :=
  match tr with
  | [] => []
  | EvJob _ call :: rest => call :: job_calls rest
  | _ :: rest => job_calls rest
  end.

(** The calls made on the acp-node client, in order. *)
Fixpoint client_calls (tr : list Event) : list (@ClientCall JsNumber) :=
  match tr with
  | [] => []
  | EvClient call :: rest => call :: client_calls rest
  | _ :: rest => client_calls rest
  end.

(** The waits, in milliseconds, in order. *)
Fixpoint sleeps (tr : list Event) : list Z :=
  match tr with
  | [] => []
  | EvSleep ms :: rest => ms :: sleeps rest
  | _ :: rest => sleeps rest
  end.

(** The calls that build a contract client, one per attempt that got past the
    settings. *)
Fixpoint contract_client_builds (tr : list Event) : nat :=
  match tr with
  | [] => 0
  | EvCreateAcpContractClient _ _ _ :: rest => S (contract_client_builds rest)
  | _ :: rest => contract_client_builds rest
  end.

(** The warnings written through [logger.warn]. *)
Fixpoint warnings (tr : list Event) : list (@LogMsg JsNumber JsValue) :=
  match tr with
  | [] => []
  | EvLog logger Warn msg _ :: rest => msg :: warnings rest
  | _ :: rest => warnings rest
  end.

Definition is_accept (call : JobCall) : bool :=
  match call with Accept _ => true | _ => false end.
Definition is_createRequirement (call : JobCall) : bool :=
  match call with CreateRequirement _ => true | _ => false end.
Definition is_reject (call : JobCall) : bool :=
  match call with Reject _ => true | _ => false end.
Definition is_deliver (call : JobCall) : bool :=
  match call with Deliver _ => true | _ => false end.

Definition count (p : JobCall → bool) (calls : list JobCall) : nat :=
  length (filter (λ call, p call = true) calls).

(** The state after some more events. *)
Definition after (st : State) (events : list Event) : State :=
  with_trace (trace st ++ events) st.

(** What the [catch] block of [setupClientWithRetry] leaves behind before it
    goes round the loop again, for the failed attempt [i]. *)
Definition waited (i : nat) (error : Thrown) (st : State) : State :=
  after st
    [ EvLog logger Error
        (Text ("ACP client connection attempt " +:+ pretty (i + 1) +:+ " failed:"))
        (Some error);
      EvLog logger Info
        (Text ("Retrying in " +:+ pretty (backoff_delay i) +:+ "ms...")) None;
      EvSleep (backoff_delay i) ].

(** The forwarding methods, as one family. *)
Inductive ForwardingOp :=
| OpGetActiveJobs (page pageSize : option JsNumber)
| OpGetCompletedJobs (page pageSize : option JsNumber)
| OpGetCancelledJobs (page pageSize : option JsNumber)
| OpGetPendingMemoJobs (page pageSize : option JsNumber)
| OpGetJobById (jobId : string)
| OpGetMemoById (jobId memoId : string)
| OpGetAccountByJobId (jobId : string)
| OpGetByClientAndProvider (clientAddress providerAddress : string).

Definition run_forwarding (env : Env) (op : ForwardingOp) : M JsValue :=
  match op with
  | OpGetActiveJobs page pageSize => getActiveJobs env page pageSize
  | OpGetCompletedJobs page pageSize => getCompletedJobs env page pageSize
  | OpGetCancelledJobs page pageSize => getCancelledJobs env page pageSize
  | OpGetPendingMemoJobs page pageSize => getPendingMemoJobs env page pageSize
  | OpGetJobById jobId => getJobById env jobId
  | OpGetMemoById jobId memoId => getMemoById env jobId memoId
  | OpGetAccountByJobId jobId => getAccountByJobId env jobId
  | OpGetByClientAndProvider c p => getByClientAndProvider env c p
  end.

(** The client method an operation forwards to, with its coerced arguments. *)
Definition forwarded_call (env : Env) (op : ForwardingOp)
  : ClientCall :=
  match op with
  | OpGetActiveJobs page pageSize => GetActiveJobs page pageSize
  | OpGetCompletedJobs page pageSize => GetCompletedJobs page pageSize
  | OpGetCancelledJobs page pageSize => GetCancelledJobs page pageSize
  | OpGetPendingMemoJobs page pageSize => GetPendingMemoJobs page pageSize
  | OpGetJobById jobId => GetJobById (js_Number env jobId)
  | OpGetMemoById jobId memoId =>
      GetMemoById (js_Number env jobId) (js_Number env memoId)
  | OpGetAccountByJobId jobId => GetAccountByJobId (js_Number env jobId)
  | OpGetByClientAndProvider c p => GetByClientAndProvider c p
  end.

(** The first statements of [handleNewTask], up to the registry lookup. *)
Definition arrival (env : Env) (job : AcpJob) (memoToSign : option AcpMemo)
  : M unit :=
  log logger Info (OnNewTaskDebug job memoToSign) None ;;
  account ← getAccountByJobId env (js_String env (job_id job)) ;
  log logger Info (JobAccountDebug account) None.

(** The account lookup that [handleNewTask] starts with. *)
Definition account_lookup (env : Env) (job : AcpJob)
  : ClientCall :=
  GetAccountByJobId (js_Number env (js_String env (job_id job))).

(** The history when the handler or the Eliza path is entered, if the account
    lookup returned [account]. *)
Definition arrived (env : Env) (job : AcpJob) (memoToSign : option AcpMemo)
    (account : JsValue) (st : State) : State :=
  after st
    [ EvLog logger Info (OnNewTaskDebug job memoToSign) None;
      EvClient (account_lookup env job);
      EvLog logger Info (JobAccountDebug account) None ].

(** The log lines that open the two recognised transitions of
    [processJobWithEliza]. *)
Definition request_opened (env : Env) (job : AcpJob) : Event :=
  EvLog logger Info
    (Text ("[Eliza ACP] REQUEST phase for job " +:+ js_String env (job_id job)
           +:+ ", routing to Eliza for capability check")) None.

Definition transaction_opened (env : Env) (job : AcpJob) : Event :=
  EvLog logger Info
    (Text ("[Eliza ACP] TRANSACTION phase for job "
           +:+ js_String env (job_id job) +:+ ", processing with Eliza")) None.

End Observing.

(** ** Concrete surroundings

    Numbers are integers or NaN, payloads are strings; each collaborator's
    answer is chosen by the scenario. *)

Module Sample.

Definition digit (c : Ascii.ascii) : option Z :=
  let n := Ascii.nat_of_ascii c in
  if Nat.leb 48 n && Nat.leb n 57 then Some (Z.of_nat (n - 48)) else None.

Fixpoint digits (acc : Z) (s : string) : option Z :=
  match s with
  | EmptyString => Some acc
  | String c rest => d ← digit c; digits (10 * acc + d) rest
  end.

(** [Number(s)] on the strings the scenarios use: decimal digits, the empty
    string is 0, anything else is NaN. *)
Definition number_of_string (s : string) : option Z := digits 0 s.

Definition string_of_number (n : option Z) : string :=
  match n with
  | Some z => pretty z
  | None => "NaN"
  end.

Definition settings (key : string) : option string :=
  if bool_decide (key = "ACP_WALLET_PRIVATE_KEY") then Some "0xkey"
  else if bool_decide (key = "ACP_ENTITY_ID") then Some "7"
  else if bool_decide (key = "ACP_AGENT_WALLET_ADDRESS") then Some "0xagent"
  else None.

Record Scenario := {
  on_client : Outcome string;
  on_job : JobCall → Outcome unit;
  on_connect : Outcome unit;
  on_emit : @Pipeline;
  on_memory : Outcome unit;
  on_build : list (@Event (option Z) string) → Outcome string;
  on_handler : FunRef → @M (option Z) string unit;
}.

Definition env_of (sc : Scenario) : @Env (option Z) string :=
  {| js_String := string_of_number;
     js_Number := number_of_string;
     getSetting := settings;
     client_answer := λ _ _, on_client sc;
     job_answer := λ _ _ call, on_job sc call;
     ensureConnection_answer := λ _ _, on_connect sc;
     pipeline_answer := λ _ _ _, on_emit sc;
     createMemory_answer := λ _ _ _, on_memory sc;
     createAcpContractClient_answer := λ tr _ _ _, on_build sc tr;
     newAcpClient_answer := λ _ _, Returned tt;
     apply_handler := λ f _ _, on_handler sc f |}.

(** Everything works: the client answers, the pipeline replies with a text. *)
Definition calm : Scenario :=
  {| on_client := Returned "account#1";
     on_job := λ _, Returned tt;
     on_connect := Returned tt;
     on_emit := Reply {| content_text := Some "done" |};
     on_memory := Returned tt;
     on_build := λ _, Returned "contract-client";
     on_handler := λ _, mret tt |}.

Definition network_down : Thrown := ErrorObj "network down".

(** The acp-node client rejects every query. *)
Definition client_down : Scenario :=
  {| on_client := Raised network_down;
     on_job := on_job calm; on_connect := on_connect calm;
     on_emit := on_emit calm; on_memory := on_memory calm;
     on_build := on_build calm; on_handler := on_handler calm |}.

(** [job.accept] rejects. *)
Definition accept_fails : Scenario :=
  {| on_client := on_client calm;
     on_job := λ call,
       match call with Accept _ => Raised network_down | _ => Returned tt end;
     on_connect := on_connect calm;
     on_emit := on_emit calm; on_memory := on_memory calm;
     on_build := on_build calm; on_handler := on_handler calm |}.

(** [runtime.ensureConnection] rejects. *)
Definition connection_fails : Scenario :=
  {| on_client := on_client calm; on_job := on_job calm;
     on_connect := Raised network_down;
     on_emit := on_emit calm; on_memory := on_memory calm;
     on_build := on_build calm; on_handler := on_handler calm |}.

(** [runtime.emitEvent] throws inside the promise executor. *)
Definition emit_throws : Scenario :=
  {| on_client := on_client calm; on_job := on_job calm;
     on_connect := on_connect calm;
     on_emit := EmitThrows network_down; on_memory := on_memory calm;
     on_build := on_build calm; on_handler := on_handler calm |}.

(** The pipeline replies with a text but the response memory cannot be
    stored. *)
Definition memory_fails : Scenario :=
  {| on_client := on_client calm; on_job := on_job calm;
     on_connect := on_connect calm;
     on_emit := on_emit calm; on_memory := Raised network_down;
     on_build := on_build calm; on_handler := on_handler calm |}.

(** The contract client can never be built. *)
Definition build_fails : Scenario :=
  {| on_client := on_client calm; on_job := on_job calm;
     on_connect := on_connect calm;
     on_emit := on_emit calm; on_memory := on_memory calm;
     on_build := λ _, Raised network_down; on_handler := on_handler calm |}.

(** The contract client is built at the third try. *)
Definition build_third : Scenario :=
  {| on_client := on_client calm; on_job := on_job calm;
     on_connect := on_connect calm;
     on_emit := on_emit calm; on_memory := on_memory calm;
     on_build := λ tr,
       if Nat.ltb (contract_client_builds tr) 2
       then Raised network_down else Returned "contract-client";
     on_handler := on_handler calm |}.

(** The handler calls [job.accept] and then throws. *)
Definition handler_throws : Scenario :=
  {| on_client := on_client calm; on_job := on_job calm;
     on_connect := on_connect calm;
     on_emit := on_emit calm; on_memory := on_memory calm;
     on_build := on_build calm;
     on_handler := λ _,
       record (EvJob (Some 5%Z) (Accept "Position accepted")) ;;
       throw (ErrorObj "position not found") |}.

Definition job (phase : AcpJobPhases) (name : option string)
  : @AcpJob (option Z) string :=
  {| job_id := Some 5%Z; job_phase := phase; job_name := name;
     job_requirement := "what is the price?";
     job_clientAddress := "0xclient" |}.

Definition memo (nextPhase : AcpJobPhases) : @AcpMemo (option Z) string :=
  {| memo_id := Some 9%Z; memo_nextPhase := nextPhase;
     memo_type := "memo"; memo_content := "" |}.

Definition registry : gmap string JobTypeConfig :=
  {[ "dca" := {| handlerType := "predetermined"; handler := Some 0 |};
     "chat" := {| handlerType := "eliza"; handler := None |};
     "legacy" := {| handlerType := "webhook"; handler := None |} ]}.

(** A started service with that registry and an empty history. *)
Definition service : @State (option Z) string :=
  {| jobTypeRegistry := registry; client := true; trace := [] |}.

End Sample.

(** ** createNotification *)

Section Notification.

Context {JsNumber JsValue : Type}.

#[local] Abbreviation Env := (@Env JsNumber JsValue).
#[local] Abbreviation State := (@State JsNumber JsValue).
#[local] Abbreviation Event := (@Event JsNumber JsValue).

(** What [createNotification] asks of the values the client hands over:
    whether a value is truthy, whether [typeof job.createNotification] is
    ["function"], what [String(memoId)] gives, and how the job object's
    [createNotification] ends, knowing the history and the notifications sent
    so far. *)
Record JobObjects := {
  value_truthy : JsValue → bool;
  has_createNotification : JsValue → bool;
  value_String : JsValue → string;
  createNotification_answer :
    list Event → list (JsValue * string) → JsValue → string → Outcome JsValue;
}.

(** The service together with the notifications sent through job objects,
    each with the job object and the content. *)
Record Notifying := {
  service_state : State;
  sent : list (JsValue * string);
}.

Definition N (A : Type) : Type := Notifying → Outcome A * Notifying.

#[global] Instance N_ret : MRet N := λ A a ns, (Returned a, ns).

#[global] Instance N_bind : MBind N := λ A B f m ns,
  match m ns with
  | (Returned a, ns') => f a ns'
  | (Raised error, ns') => (Raised error, ns')
  | (Pending, ns') => (Pending, ns')
  end.

(** A method of the service, run on the service part. *)
Definition on_service {A} (m : M A) : N A := λ ns,
  let '(outcome, st) := m (service_state ns) in
  (outcome, {| service_state := st; sent := sent ns |}).

Definition N_throw {A} (error : Thrown) : N A := λ ns, (Raised error, ns).

Definition N_try_catch {A} (body : N A) (handle : Thrown → N A) : N A := λ ns,
  match body ns with
  | (Raised error, ns') => handle error ns'
  | settled => settled
  end.

(** [createNotificationFn.call(job, content)] *)
Definition call_createNotification (objects : JobObjects) (job : JsValue)
    (content : string) : N JsValue := λ ns,
  (createNotification_answer objects (trace (service_state ns)) (sent ns)
     job content,
   {| service_state := service_state ns;
      sent := sent ns ++ [(job, content)] |}).

(** [createNotification]; [None] is the [null] result. *)
Definition createNotification (env : Env) (objects : JobObjects)
    (jobId content : string) : N (option string) :=
  N_try_catch
    (job ← on_service (getJobById env jobId) ;
     if negb (value_truthy objects job) then
       on_service (log logger Error (Text ("Job not found: " +:+ jobId)) None) ;;
       mret None
     else if negb (has_createNotification objects job) then
       on_service
         (log logger Warn
            (Text "[AcpService] createNotification method is not available on AcpJob")
            None) ;;
       mret None
     else
       memoId ← call_createNotification objects job content ;
       mret (if value_truthy objects memoId
             then Some (value_String objects memoId) else None))
    (λ error,
       on_service
         (log logger Error (Text "Error creating notification:") (Some error)) ;;
       N_throw error).

End Notification.

(** ** handlers/elizaHandler.ts

    The generic handler for general queries.  It does not use the service:
    it works on the job object and the runtime, so it has a history of its
    own.  A JavaScript string is represented by its characters in ASCII;
    [length] and [toLowerCase] agree with JavaScript's on such strings, and
    the properties of [canHandleQuery] are stated for them. *)

Module ElizaHandler.

Definition lower_char (c : Ascii.ascii) : Ascii.ascii :=
  let n := Ascii.nat_of_ascii c in
  if Nat.leb 65 n && Nat.leb n 90 then Ascii.ascii_of_nat (n + 32) else c.

(** [s.toLowerCase()] *)
Fixpoint toLowerCase (s : string) : string :=
  match s with
  | EmptyString => EmptyString
  | String c rest => String (lower_char c) (toLowerCase rest)
  end.

(** [s.includes(sub)] *)
Fixpoint includes (s sub : string) : bool :=
  String.prefix sub s ||
  match s with
  | EmptyString => false
  | String _ rest => includes rest sub
  end.

(** The strings the embedding stands for: every character below 128. *)
Fixpoint all_below_128 (s : string) : bool :=
  match s with
  | EmptyString => true
  | String c rest => Nat.ltb (Ascii.nat_of_ascii c) 128 && all_below_128 rest
  end.

Definition ascii_only (s : string) : Prop := all_below_128 s = true.

Definition unsupportedKeywords : list string :=
  ["illegal"; "harmful"; "dangerous"].

Section Handler.

Context {JsNumber JsValue : Type}.

(** [GeneralQueryRequirement] *)
Record GeneralQueryRequirement := {
  query : string;
  context : option JsValue;
  expectedFormat : option string;
}.

(** [canHandleQuery] *)
Definition canHandleQuery (requirement : GeneralQueryRequirement) : bool :=
  let query := query requirement in
  if Z.ltb 10000 (Z.of_nat (String.length query)) then false
  else if existsb (λ keyword, includes (toLowerCase query) keyword)
            unsupportedKeywords
  then false
  else true.

(** [DeliverablePayload] as [formatElizaResponse] builds it: the value is
    the response text or the parsed JSON value. *)
Inductive PayloadValue :=
| TextValue (text : string)
| ObjectValue (parsed : JsValue).

Record DeliverablePayload := {
  payload_type : string;
  payload_value : PayloadValue;
  payload_processedAt : string;
}.

Inductive QueryJobCall :=
| QAccept (reason : string)
| QCreateRequirement (content : string)
| QReject (reason : string)
| QDeliver (payload : DeliverablePayload).

Inductive MemoryKind := IncomingMessage | ResponseMessage.

(** What the handler does that can be observed, in order. *)
Inductive QueryEvent :=
| QLog (level : LogLevel) (text : string) (error : option Thrown)
| QJob (call : QueryJobCall)
| QCreateMemory (kind : MemoryKind) (text : string)
| QEmitMessageReceived.

Definition H (A : Type) : Type := list QueryEvent → Outcome A * list QueryEvent.

#[global] Instance H_ret : MRet H := λ A a tr, (Returned a, tr).

#[global] Instance H_bind : MBind H := λ A B f m tr,
  match m tr with
  | (Returned a, tr') => f a tr'
  | (Raised error, tr') => (Raised error, tr')
  | (Pending, tr') => (Pending, tr')
  end.

Definition H_throw {A} (error : Thrown) : H A := λ tr, (Raised error, tr).

Definition H_try_catch {A} (body : H A) (handle : Thrown → H A) : H A := λ tr,
  match body tr with
  | (Raised error, tr') => handle error tr'
  | settled => settled
  end.

Definition qlog (level : LogLevel) (text : string) (error : option Thrown)
  : H unit :=
  λ tr, (Returned tt, tr ++ [QLog level text error]).

(** The job object, the runtime and the built-ins the handler relies on.
    [requirement_of] is the cast [job.requirement as GeneralQueryRequirement];
    [json_parse] is [JSON.parse], [None] when it throws; [now_iso] is
    [new Date().toISOString()]. *)
Record QueryEnv := {
  q_String : JsNumber → string;
  requirement_of : JsValue → GeneralQueryRequirement;
  json_parse : string → option JsValue;
  now_iso : list QueryEvent → string;
  q_job_answer : list QueryEvent → QueryJobCall → Outcome unit;
  q_createMemory_answer : list QueryEvent → MemoryKind → string → Outcome unit;
  q_pipeline_answer : list QueryEvent → Pipeline;
}.

Variable env : QueryEnv.

Definition qjob (call : QueryJobCall) : H unit :=
  λ tr, (q_job_answer env tr call, tr ++ [QJob call]).

Definition qcreateMemory (kind : MemoryKind) (text : string) : H unit :=
  λ tr, (q_createMemory_answer env tr kind text, tr ++ [QCreateMemory kind text]).

(** [formatElizaResponse] *)
Definition formatElizaResponse (response : string)
    (requirement : GeneralQueryRequirement) : H DeliverablePayload :=
  let expectedFormat :=
    if truthy (expectedFormat requirement)
    then default "" (expectedFormat requirement) else "text" in
  let as_text : H DeliverablePayload := λ tr,
    (Returned {| payload_type := "text"; payload_value := TextValue response;
                 payload_processedAt := now_iso env tr |}, tr) in
  if bool_decide (expectedFormat = "json") then
    match json_parse env response with
    | Some parsed => λ tr,
        (Returned {| payload_type := "object";
                     payload_value := ObjectValue parsed;
                     payload_processedAt := now_iso env tr |}, tr)
    | None =>
        qlog Warn "Failed to parse response as JSON, returning as text" None ;;
        as_text
    end
  else as_text.

(** The reply callback of [handleGeneralQuery]; the memories it returns are
    not modelled. *)
Definition query_callback (jobIdStr : string)
    (requirement : GeneralQueryRequirement) (content : Content) : H unit :=
  H_try_catch
    (if truthy (content_text content) then
       let text := default "" (content_text content) in
       qlog Info ("[ACP Eliza] Eliza response: " +:+ text) None ;;
       deliverable ← formatElizaResponse text requirement ;
       qjob (QDeliver deliverable) ;;
       qlog Success
         ("[ACP Eliza] Job " +:+ jobIdStr +:+ " delivered successfully") None ;;
       qcreateMemory ResponseMessage text
     else
       qlog Warn "[ACP Eliza] No text content in response" None)
    (λ error,
       qlog Error "[ACP Eliza] Error in callback:" (Some error) ;;
       qjob (QReject "Error processing response")).

(** What the pipeline does with the callback happens after [emitEvent] has
    returned: it is appended to the history, and how the callback ends does
    not reach the handler. *)
Definition later (callback : H unit) : H unit := λ tr,
  (Returned tt, (callback tr).2).

(** [handleGeneralQuery] *)
Definition handleGeneralQuery (job : @AcpJob JsNumber JsValue)
    (memoToSign : option (@AcpMemo JsNumber JsValue)) : H unit :=
  let phase := job_phase job in
  let jobIdStr := q_String env (job_id job) in
  let requirement := requirement_of env (job_requirement job) in
  let nextPhase := memo_nextPhase <$> memoToSign in
  if bool_decide (phase = REQUEST ∧ nextPhase = Some NEGOTIATION) then
    if canHandleQuery requirement then
      qjob (QAccept "Job requirement matches agent capability") ;;
      qjob (QCreateRequirement
              ("Job " +:+ jobIdStr
               +:+ " accepted, please make payment to proceed")) ;;
      qlog Success
        ("[ACP Eliza] General query job " +:+ jobIdStr +:+ " accepted") None
    else
      qjob (QReject "Job requirement does not meet agent capability") ;;
      qlog Warn
        ("[ACP Eliza] General query job " +:+ jobIdStr +:+ " rejected") None
  else if bool_decide (phase = TRANSACTION ∧ nextPhase = Some EVALUATION) then
    H_try_catch
      (qlog Info
         ("[ACP Eliza] Processing query job " +:+ jobIdStr +:+ " with Eliza")
         None ;;
       qcreateMemory IncomingMessage (query requirement) ;;
       reply ← (λ tr, (Returned (q_pipeline_answer env tr),
                       tr ++ [QEmitMessageReceived])) ;
       match reply with
       | EmitThrows error => H_throw error
       | NoReply => mret tt
       | Reply content => later (query_callback jobIdStr requirement content)
       end)
      (λ error,
         qlog Error
           ("[ACP Eliza] Error processing job " +:+ jobIdStr +:+ ":")
           (Some error) ;;
         qjob (QReject "Unable to process job requirement"))
  else mret tt.

(** The calls made on the job object, in order. *)
Fixpoint query_job_calls (tr : list QueryEvent) : list QueryJobCall :=
  match tr with
  | [] => []
  | QJob call :: rest => call :: query_job_calls rest
  | _ :: rest => query_job_calls rest
  end.

(** The history of the TRANSACTION/EVALUATION transition of
    [handleGeneralQuery]: after the opening log line, after the incoming
    message has been stored, after MESSAGE_RECEIVED has been emitted. *)
Definition query_started (job : @AcpJob JsNumber JsValue)
    (tr : list QueryEvent) : list QueryEvent :=
  tr ++ [QLog Info
           ("[ACP Eliza] Processing query job " +:+ q_String env (job_id job)
            +:+ " with Eliza") None].

Definition query_stored (job : @AcpJob JsNumber JsValue)
    (tr : list QueryEvent) : list QueryEvent :=
  query_started job tr
    ++ [QCreateMemory IncomingMessage
          (query (requirement_of env (job_requirement job)))].

Definition query_emitted (job : @AcpJob JsNumber JsValue)
    (tr : list QueryEvent) : list QueryEvent :=
  query_stored job tr ++ [QEmitMessageReceived].

End Handler.

End ElizaHandler.

(** ** More concrete surroundings *)

Module Cases.

Import Sample ElizaHandler.

(** The pipeline never calls the reply callback. *)
Definition silent : Scenario :=
  {| on_client := on_client calm; on_job := on_job calm;
     on_connect := on_connect calm;
     on_emit := NoReply; on_memory := on_memory calm;
     on_build := on_build calm; on_handler := on_handler calm |}.

(** The pipeline replies without text. *)
Definition speechless : Scenario :=
  {| on_client := on_client calm; on_job := on_job calm;
     on_connect := on_connect calm;
     on_emit := Reply {| content_text := Some "" |};
     on_memory := on_memory calm;
     on_build := on_build calm; on_handler := on_handler calm |}.

(** No setting is configured. *)
Definition unconfigured : @Env (option Z) string :=
  {| js_String := string_of_number;
     js_Number := number_of_string;
     getSetting := λ _, None;
     client_answer := λ _ _, Returned "account#1";
     job_answer := λ _ _ _, Returned tt;
     ensureConnection_answer := λ _ _, Returned tt;
     pipeline_answer := λ _ _ _, NoReply;
     createMemory_answer := λ _ _ _, Returned tt;
     createAcpContractClient_answer := λ _ _ _ _, Returned "contract-client";
     newAcpClient_answer := λ _ _, Returned tt;
     apply_handler := λ _ _ _, mret tt |}.

(** Only the agent's wallet address is missing. *)
Definition addressless : @Env (option Z) string :=
  {| js_String := string_of_number;
     js_Number := number_of_string;
     getSetting := λ key,
       if bool_decide (key = "ACP_AGENT_WALLET_ADDRESS") then Some ""
       else settings key;
     client_answer := client_answer unconfigured;
     job_answer := job_answer unconfigured;
     ensureConnection_answer := ensureConnection_answer unconfigured;
     pipeline_answer := pipeline_answer unconfigured;
     createMemory_answer := createMemory_answer unconfigured;
     createAcpContractClient_answer :=
       createAcpContractClient_answer unconfigured;
     newAcpClient_answer := newAcpClient_answer unconfigured;
     apply_handler := apply_handler unconfigured |}.

(** A registry with a ["predetermined"] entry that has no handler and an
    entry under the empty name. *)
Definition careless_registry : gmap string JobTypeConfig :=
  {[ "broken" := {| handlerType := "predetermined"; handler := None |};
     "" := {| handlerType := "eliza"; handler := None |} ]}.

Definition careless_service : @State (option Z) string :=
  {| jobTypeRegistry := careless_registry; client := true; trace := [] |}.

(** A service object that was constructed but never connected. *)
Definition unconnected_service : @State (option Z) string :=
  {| jobTypeRegistry := registry; client := false; trace := [] |}.

(** Job objects as strings: the empty string stands for a job that was not
    found, ["job:plain"] for a job object without [createNotification]; the
    memo id of a notification is its content, so an empty content gives a
    falsy memo id. *)
Definition objects : @JobObjects (option Z) string :=
  {| value_truthy := λ v, negb (bool_decide (v = ""));
     has_createNotification := λ v, negb (bool_decide (v = "job:plain"));
     value_String := λ v, v;
     createNotification_answer := λ _ _ _ content, Returned content |}.

Definition found_job (job : string) : Scenario :=
  {| on_client := Returned job; on_job := on_job calm;
     on_connect := on_connect calm;
     on_emit := on_emit calm; on_memory := on_memory calm;
     on_build := on_build calm; on_handler := on_handler calm |}.

Definition notifying (st : @State (option Z) string)
  : @Notifying (option Z) string :=
  {| service_state := st; sent := [] |}.

(** Surroundings of the general query handler: the requirement is its query
    text, no response parses as JSON, the clock stands still. *)
Definition query_env (jobs : @QueryJobCall string → Outcome unit)
    (memory : MemoryKind → Outcome unit) (reply : Pipeline)
  : @QueryEnv (option Z) string :=
  {| q_String := string_of_number;
     requirement_of := λ v,
       {| query := v; context := None; expectedFormat := None |};
     json_parse := λ _, None;
     now_iso := λ _, "2025-01-01T00:00:00.000Z";
     q_job_answer := λ _ call, jobs call;
     q_createMemory_answer := λ _ kind _, memory kind;
     q_pipeline_answer := λ _, reply |}.

Definition query_job (phase : AcpJobPhases) (text : string)
  : @AcpJob (option Z) string :=
  {| job_id := Some 5%Z; job_phase := phase; job_name := Some "general_query";
     job_requirement := text; job_clientAddress := "0xclient" |}.

End Cases.

(** * Properties *)

(** ** The registry *)

Lemma spread2_lookup (a b : gmap string JobTypeConfig) (key : string) :
  spread2 a b !! key =
    match b !! key with
    | Some entry => Some entry
    | None => a !! key
    end.
Proof.
  unfold spread2. rewrite lookup_union.
  destruct (b !! key) as [entry|]; destruct (a !! key); reflexivity.
Qed.

Lemma spread2_again (a b : gmap string JobTypeConfig) :
  spread2 (spread2 a b) b = spread2 a b.
Proof.
  apply map_eq; intros key. rewrite !spread2_lookup.
  destruct (b !! key); reflexivity.
Qed.

(** Runs a computation symbolically as far as the goal determines it. *)
Ltac run :=
  repeat (progress
    (unfold mbind, M_bind, mret, M_ret, try_catch, log, record, external,
       throw, never, after, with_trace, with_client, with_registry;
     cbn)).

(** Closes a goal whose sides differ by how the history is bracketed. *)
Ltac same_history :=
  unfold after, with_trace; cbn; rewrite <- ?app_assoc; reflexivity.

Section Properties.

Context {JsNumber JsValue : Type}.

#[local] Abbreviation Env := (@Env JsNumber JsValue).
#[local] Abbreviation State := (@State JsNumber JsValue).
#[local] Abbreviation AcpJob := (@AcpJob JsNumber JsValue).
#[local] Abbreviation AcpMemo := (@AcpMemo JsNumber JsValue).
#[local] Abbreviation Event := (@Event JsNumber JsValue).

Implicit Types (env : Env) (st : State) (job : AcpJob)
  (memoToSign : option AcpMemo) (error : Thrown).

(** C6. Updating the registry twice with the same update leaves it as after
    the first update, as a map and on the service; after an update every
    key of the update holds the update's entry whole, and every other key
    holds what it held before. *)
Theorem updateJobTypeRegistry_idempotent
    (current update : gmap string JobTypeConfig) st :
  merge_registry (merge_registry current update) update
    = merge_registry current update
  ∧ (let once := (updateJobTypeRegistry update st).2 in
     let twice := (updateJobTypeRegistry update once).2 in
     jobTypeRegistry twice = jobTypeRegistry once
     ∧ ∀ key : string,
         jobTypeRegistry once !! key =
           match update !! key with
           | Some entry => Some entry
           | None => jobTypeRegistry st !! key
           end).
Proof.
  split; [apply spread2_again|].
  cbn. split; [apply spread2_again|].
  intros key. apply spread2_lookup.
Qed.

(** C9. The registry of a freshly constructed service is the default registry
    overridden key by key by the configuration's registry: a key of the
    configuration holds the configuration's entry, any other key holds what
    the default registry holds; without a configuration, or with one that has
    no registry, it is the default registry, which is empty. *)
Theorem constructor_registry_overrides
    (config : option PartialAcpServiceConfig) (history : list Event) :
  (∀ key : string,
     jobTypeRegistry (new_AcpService config history) !! key =
       match (config ≫= cfg_jobTypeRegistry) ≫= (λ r, r !! key) with
       | Some entry => Some entry
       | None => createDefaultJobTypeRegistry !! key
       end)
  ∧ jobTypeRegistry (new_AcpService None history)
      = createDefaultJobTypeRegistry
  ∧ jobTypeRegistry
      (new_AcpService (Some {| cfg_jobTypeRegistry := None |}) history)
      = createDefaultJobTypeRegistry
  ∧ createDefaultJobTypeRegistry = ∅.
Proof.
  split; [|split; [|split]].
  - intros key. cbn. unfold constructor_registry. rewrite spread2_lookup.
    destruct config as [[[r|]]|]; cbn; try reflexivity.
  - cbn. unfold constructor_registry, spread2. cbn. apply (left_id_L ∅ (∪)).
  - cbn. unfold constructor_registry, spread2. cbn. apply (left_id_L ∅ (∪)).
  - reflexivity.
Qed.

(** ** Forwarding *)

Lemma forward_run env (method message : string) (call : ClientCall) st :
  client st = true →
  forward env method call message st =
    match client_answer env (trace st) call with
    | Returned value => (Returned value, after st [EvClient call])
    | Raised error =>
        (Raised error,
         after st [EvClient call;
                   EvLog logger Error (Text message) (Some error)])
    | Pending => (Pending, after st [EvClient call])
    end.
Proof.
  intros Hclient. unfold forward, try_catch, client_call. rewrite Hclient.
  run. destruct (client_answer env (trace st) call); run; try reflexivity.
  by rewrite <- app_assoc.
Qed.

(** C7. Each forwarding method, on a service whose client is assigned, makes
    one call to the client.  If the client raises, the error is logged and
    the same error is raised to the caller; if the client returns, its result
    is returned; nothing else happens and the registry is not touched. *)
Theorem forwarding_passes_through env (op : ForwardingOp) st :
  client st = true →
  ∃ message : string,
    run_forwarding env op st =
      match client_answer env (trace st) (forwarded_call env op) with
      | Returned value =>
          (Returned value, after st [EvClient (forwarded_call env op)])
      | Raised error =>
          (Raised error,
           after st [EvClient (forwarded_call env op);
                     EvLog logger Error (Text message) (Some error)])
      | Pending => (Pending, after st [EvClient (forwarded_call env op)])
      end.
Proof.
  intros Hclient.
  destruct op; cbn [run_forwarding forwarded_call];
    unfold getActiveJobs, getCompletedJobs, getCancelledJobs,
      getPendingMemoJobs, getJobById, getMemoById, getAccountByJobId,
      getByClientAndProvider;
    eexists; apply forward_run; exact Hclient.
Qed.

(** ** The job router *)

Lemma arrival_returns env job memoToSign st account :
  client st = true →
  client_answer env
    (trace st ++ [EvLog logger Info (OnNewTaskDebug job memoToSign) None])
    (account_lookup env job) = Returned account →
  arrival env job memoToSign st
    = (Returned tt, arrived env job memoToSign account st).
Proof.
  intros Hclient Hanswer. unfold arrival, getAccountByJobId. run.
  rewrite forward_run by exact Hclient. cbn.
  unfold account_lookup in Hanswer. rewrite Hanswer. run.
  unfold arrived, account_lookup. run. by rewrite <- !app_assoc.
Qed.

Lemma forward_keeps env (method message : string) (call : ClientCall) st :
  jobTypeRegistry (forward env method call message st).2 = jobTypeRegistry st.
Proof.
  unfold forward, client_call. run. destruct (client st); [|reflexivity].
  destruct (client_answer env (trace st) call); reflexivity.
Qed.

(** [handleNewTask] is [arrival] followed by the lookup and the routing. *)
Lemma handleNewTask_after_arrival env job memoToSign st :
  handleNewTask env job memoToSign st =
    match arrival env job memoToSign st with
    | (Returned _, st') =>
        match (if truthy (job_name job)
               then get_property (jobTypeRegistry st) (default "" (job_name job))
               else Undefined) with
        | Undefined =>
            log logger Warn
              (Text ("[handleNewTask] No configuration found for job type: "
                     +:+ interpolate (job_name job))) None st'
        | PrototypeMember => (Returned tt, st')
        | OwnEntry config =>
            if bool_decide (handlerType config = "predetermined") then
              match handler config with
              | Some f =>
                  try_catch (apply_handler env f job memoToSign)
                    (λ error,
                       log logger Error
                         (Text ("[handleNewTask] Error in predetermined handler for "
                                +:+ interpolate (job_name job) +:+ ":"))
                         (Some error)) st'
              | None =>
                  log logger Warn
                    (Text ("[handleNewTask] No handler function provided for predetermined job type: "
                           +:+ interpolate (job_name job))) None st'
              end
            else if bool_decide (handlerType config = "eliza") then
              processJobWithEliza env job memoToSign st'
            else (Returned tt, st')
        end
    | (Raised error, st') => (Raised error, st')
    | (Pending, st') => (Pending, st')
    end.
Proof.
  unfold handleNewTask, arrival, getAccountByJobId.
  unfold mbind, M_bind, mret, M_ret, log, record. cbn.
  pose proof (forward_keeps env "getAccountByJobId"
    "Error getting account by job ID:"
    (GetAccountByJobId (js_Number env (js_String env (job_id job))))
    (with_trace
       (trace st ++ [EvLog logger Info (OnNewTaskDebug job memoToSign) None])
       st)) as Hkeep.
  destruct (forward _ _ _ _ _) as [[account|error|] st1]; cbn in *;
    try reflexivity.
  rewrite Hkeep.
  destruct (truthy (job_name job)); [|reflexivity].
  destruct (get_property _ _) as [| |config]; try reflexivity.
  destruct (bool_decide (handlerType config = "predetermined"));
    [destruct (handler config); reflexivity|].
  destruct (bool_decide (handlerType config = "eliza")); reflexivity.
Qed.


(** C8. When the job's type name is a key of the registry and the entry's
    [handlerType] is neither ["predetermined"] nor ["eliza"], the routing
    step does nothing: [handleNewTask] ends exactly as its statements before
    the routing do, with the same outcome, the same history and the same
    registry, so the branch adds no call and no log line. *)
Theorem handleNewTask_unknown_handlerType env job memoToSign st
    (key : string) (config : JobTypeConfig) :
  job_name job = Some key →
  key ≠ "" →
  jobTypeRegistry st !! key = Some config →
  handlerType config ≠ "predetermined" →
  handlerType config ≠ "eliza" →
  handleNewTask env job memoToSign st = arrival env job memoToSign st.
Proof.
  intros Hname Hkey Hentry Hnot_pre Hnot_eliza.
  rewrite handleNewTask_after_arrival.
  rewrite Hname. cbn. rewrite (bool_decide_false _ Hkey). cbn.
  unfold get_property. rewrite Hentry.
  rewrite (bool_decide_false _ Hnot_pre), (bool_decide_false _ Hnot_eliza).
  destruct (arrival env job memoToSign st) as [[[]|error|] st']; reflexivity.
Qed.

(** C5. When the job's type name maps to a ["predetermined"] entry with a
    handler, and the handler raises, [handleNewTask] returns normally: the
    error is written to the log after whatever the handler did, it is not
    raised to the caller, and the handler has been applied once. *)
Theorem handleNewTask_swallows_handler_failure env job memoToSign st
    (account : JsValue) (key : string) (config : JobTypeConfig) (f : FunRef)
    error (st' : State) :
  client st = true →
  client_answer env
    (trace st ++ [EvLog logger Info (OnNewTaskDebug job memoToSign) None])
    (account_lookup env job) = Returned account →
  job_name job = Some key →
  key ≠ "" →
  jobTypeRegistry st !! key = Some config →
  handlerType config = "predetermined" →
  handler config = Some f →
  apply_handler env f job memoToSign (arrived env job memoToSign account st)
    = (Raised error, st') →
  handleNewTask env job memoToSign st =
    (Returned tt,
     after st'
       [ EvLog logger Error
           (Text ("[handleNewTask] Error in predetermined handler for "
                  +:+ key +:+ ":")) (Some error) ]).
Proof.
  intros Hclient Hanswer Hname Hkey Hentry Hpre Hf Hraised.
  rewrite handleNewTask_after_arrival.
  rewrite (arrival_returns _ _ _ _ _ Hclient Hanswer).
  rewrite Hname. cbn. rewrite (bool_decide_false _ Hkey). cbn.
  unfold get_property. rewrite Hentry.
  rewrite (bool_decide_true _ Hpre), Hf.
  unfold try_catch. rewrite Hraised. reflexivity.
Qed.

(** ** The Eliza path *)

Lemma job_calls_app (tr1 tr2 : list Event) :
  job_calls (tr1 ++ tr2) = job_calls tr1 ++ job_calls tr2.
Proof.
  induction tr1 as [|ev tr1 IH]; [reflexivity|].
  destruct ev; cbn; rewrite IH; reflexivity.
Qed.

(** The TRANSACTION/EVALUATION transition, given how
    [processJobWithElizaAI] ends: one call on the job when it resolves (the
    delivery of the deliverable, or the rejection when there is none), and
    no call when it raises or never resolves. *)
Lemma transaction_phase_run env job (memo : AcpMemo) st :
  job_phase job = TRANSACTION →
  memo_nextPhase memo = EVALUATION →
  processJobWithEliza env job (Some memo) st =
    match processJobWithElizaAI env job (Some memo)
            (after st [transaction_opened env job]) with
    | (Returned deliverable, st') =>
        let call :=
          match deliverable with
          | Some payload => Deliver payload
          | None => Reject "Unable to process job requirement"
          end in
        let done :=
          match deliverable with
          | Some _ =>
              EvLog logger Success
                (Text ("[Eliza ACP] Job " +:+ js_String env (job_id job)
                       +:+ " delivered")) None
          | None =>
              EvLog logger Error
                (Text ("[Eliza ACP] Job " +:+ js_String env (job_id job)
                       +:+ " rejected - no deliverable")) None
          end in
        match job_answer env (trace st') job call with
        | Returned _ => (Returned tt, after st' [EvJob (job_id job) call; done])
        | Raised error =>
            (Returned tt,
             after st'
               [ EvJob (job_id job) call;
                 EvLog elizaLogger Error (Text "Error in processJobWithEliza")
                   (Some error) ])
        | Pending => (Pending, after st' [EvJob (job_id job) call])
        end
    | (Raised error, st') =>
        (Returned tt,
         after st'
           [ EvLog elizaLogger Error (Text "Error in processJobWithEliza")
               (Some error) ])
    | (Pending, st') => (Pending, st')
    end.
Proof.
  intros Hphase Hnext.
  unfold processJobWithEliza, processJobWithEliza_with, try_catch.
  cbv zeta. cbn [fmap option_fmap option_map]. rewrite Hphase, Hnext.
  rewrite bool_decide_false by (intros [? _]; discriminate).
  rewrite bool_decide_true by done.
  unfold job_call, transaction_opened. run.
  destruct (processJobWithElizaAI _ _ _ _) as [[[payload|]|error|] st'];
    run; try reflexivity;
    destruct (job_answer env (trace st') job _) as [[]|error|];
    same_history.
Qed.

(** C10. In the TRANSACTION/EVALUATION transition, when the connection is
    ensured, the pipeline replies with a non-empty text and storing the
    response memory raises, [processJobWithElizaAI] resolves with no
    deliverable, and [processJobWithEliza] makes exactly one call on the job,
    the rejection with the fixed reason: the job is not delivered. *)
Theorem reply_callback_failure_rejects env job (memo : AcpMemo) st
    (content : Content) (text : string) error :
  job_phase job = TRANSACTION →
  memo_nextPhase memo = EVALUATION →
  let opened := after st [transaction_opened env job] in
  let connected := after opened [EvEnsureConnection job] in
  let emitted := after connected [EvEmitMessageReceived job (Some memo)] in
  ensureConnection_answer env (trace opened) job = Returned tt →
  pipeline_answer env (trace connected) job (Some memo) = Reply content →
  content_text content = Some text →
  text ≠ "" →
  createMemory_answer env (trace emitted) (js_String env (job_id job)) text
    = Raised error →
  processJobWithElizaAI env job (Some memo) opened =
    (Returned None,
     after emitted
       [ EvCreateMemory (js_String env (job_id job)) text;
         EvLog elizaLogger Error (Text "Error in Eliza callback") (Some error) ])
  ∧ job_calls (trace (processJobWithEliza env job (Some memo) st).2) =
      job_calls (trace st) ++ [Reject "Unable to process job requirement"]
  ∧ ∀ raised, (processJobWithEliza env job (Some memo) st).1 ≠ Raised raised.
Proof.
  intros Hphase Hnext opened connected emitted Hconnect Hreply Htext Hnonempty
    Hmemory.
  assert (processJobWithElizaAI env job (Some memo) opened =
    (Returned None,
     after emitted
       [ EvCreateMemory (js_String env (job_id job)) text;
         EvLog elizaLogger Error (Text "Error in Eliza callback") (Some error) ]))
    as HAI.
  { unfold processJobWithElizaAI, reply_callback. run.
    cbn in Hconnect. rewrite Hconnect. cbn in Hreply. rewrite Hreply.
    rewrite Htext. cbn. rewrite (bool_decide_false _ Hnonempty). cbn.
    cbn in Hmemory. rewrite Hmemory. same_history. }
  split; [exact HAI|].
  rewrite (transaction_phase_run _ _ _ _ Hphase Hnext).
  fold opened. rewrite HAI. cbv zeta.
  destruct (job_answer env _ job _) as [[]|raised|];
    (split; [|intros ?; discriminate]);
    cbn; rewrite !job_calls_app; cbn; rewrite ?app_nil_r; reflexivity.
Qed.

(** C4 (amended). In the REQUEST/NEGOTIATION transition the capability check
    is consulted, and [checkElizaCapability] always permits.  When the check
    permits, the job is accepted with exactly one call.  If the accept call
    returns, the requirement-creation call follows, once.  If the accept call
    raises, the failure is caught and logged and there is no further call.
    If the accept call never settles, the processing stays pending and there
    is no further call.  When the check does not permit, the only call is one
    rejection with its reason string, so there is no accept and no deliver
    call.  A failure of the requirement-creation call or of the rejection is
    caught and logged in the same way, so no error reaches the caller.  The
    theorem gives the outcome and the whole history for each of these
    cases. *)
Theorem request_phase_calls env (checkCapability : AcpJob → M bool) job
    (memo : AcpMemo) st (canHandle : bool) (st' : State) :
  job_phase job = REQUEST →
  memo_nextPhase memo = NEGOTIATION →
  checkCapability job (after st [request_opened env job])
    = (Returned canHandle, st') →
  let accept := Accept "Job requirement matches agent capability" in
  let require :=
    CreateRequirement
      ("Job " +:+ js_String env (job_id job)
       +:+ " accepted, please make payment to proceed") in
  let reject := Reject "Job requirement does not meet agent capability" in
  let caught error :=
    EvLog elizaLogger Error (Text "Error in processJobWithEliza") (Some error) in
  let result := processJobWithEliza_with env checkCapability job (Some memo) st in
  checkElizaCapability job (after st [request_opened env job])
    = (Returned true, after st [request_opened env job])
  ∧ result =
      (if canHandle then
         match job_answer env (trace st') job accept with
         | Returned _ =>
             match job_answer env (trace st' ++ [EvJob (job_id job) accept])
                     job require with
             | Returned _ =>
                 (Returned tt,
                  after st'
                    [ EvJob (job_id job) accept;
                      EvJob (job_id job) require;
                      EvLog logger Success
                        (Text ("[Eliza ACP] Job " +:+ js_String env (job_id job)
                               +:+ " accepted and requirement created")) None ])
             | Raised error =>
                 (Returned tt,
                  after st'
                    [ EvJob (job_id job) accept;
                      EvJob (job_id job) require;
                      caught error ])
             | Pending =>
                 (Pending,
                  after st'
                    [EvJob (job_id job) accept; EvJob (job_id job) require])
             end
         | Raised error =>
             (Returned tt, after st' [EvJob (job_id job) accept; caught error])
         | Pending => (Pending, after st' [EvJob (job_id job) accept])
         end
       else
         match job_answer env (trace st') job reject with
         | Returned _ =>
             (Returned tt,
              after st'
                [ EvJob (job_id job) reject;
                  EvLog logger Warn
                    (Text ("[Eliza ACP] Job " +:+ js_String env (job_id job)
                           +:+ " rejected by capability check")) None ])
         | Raised error =>
             (Returned tt, after st' [EvJob (job_id job) reject; caught error])
         | Pending => (Pending, after st' [EvJob (job_id job) reject])
         end)
  ∧ job_calls (trace result.2) =
      job_calls (trace st') ++
        (if canHandle then
           accept ::
             match job_answer env (trace st') job accept with
             | Returned _ => [require]
             | _ => []
             end
         else [reject])
  ∧ ∀ raised, result.1 ≠ Raised raised.
Proof.
  intros Hphase Hnext Hcheck accept require reject caught result.
  split; [reflexivity|].
  match goal with |- ?equation ∧ _ =>
    assert equation as Hrun; [|split; [exact Hrun|]] end.
  { subst result.
    unfold processJobWithEliza_with, try_catch.
    cbv zeta. cbn [fmap option_fmap option_map]. rewrite Hphase, Hnext.
    rewrite bool_decide_true by done.
    unfold job_call. unfold request_opened in Hcheck. run.
    unfold after, with_trace in Hcheck. cbn in Hcheck. rewrite Hcheck.
    destruct canHandle; run.
    - fold accept.
      destruct (job_answer env (trace st') job accept) as [[]|error|]; run;
        [|subst caught; same_history|same_history].
      fold require.
      destruct (job_answer env _ job require) as [[]|error|]; run;
        subst caught; same_history.
    - fold reject.
      destruct (job_answer env (trace st') job reject) as [[]|error|]; run;
        subst caught; same_history. }
  rewrite Hrun. clear Hrun.
  destruct canHandle.
  - destruct (job_answer env (trace st') job accept) as [[]|error|].
    + destruct (job_answer env _ job require) as [[]|error|];
        (split; [|intros ?; discriminate]);
        cbn; rewrite !job_calls_app; cbn; by rewrite ?app_nil_r.
    + split; [|intros ?; discriminate].
      cbn; rewrite !job_calls_app; cbn; by rewrite ?app_nil_r.
    + split; [|intros ?; discriminate].
      cbn; rewrite !job_calls_app; reflexivity.
  - destruct (job_answer env (trace st') job reject) as [[]|error|];
      (split; [|intros ?; discriminate]);
      cbn; rewrite !job_calls_app; cbn; by rewrite ?app_nil_r.
Qed.

(** ** Connection bootstrap *)

Lemma sleeps_app (tr1 tr2 : list Event) :
  sleeps (tr1 ++ tr2) = sleeps tr1 ++ sleeps tr2.
Proof.
  induction tr1 as [|ev tr1 IH]; [reflexivity|].
  destruct ev; cbn; rewrite IH; reflexivity.
Qed.

(** An attempt never waits. *)
Lemma setupClient_sleeps env st :
  sleeps (trace (setupClient env st).2) = sleeps (trace st).
Proof.
  unfold setupClient.
  destruct (negb (truthy (getSetting env "ACP_WALLET_PRIVATE_KEY")));
    [reflexivity|].
  destruct (negb (truthy (getSetting env "ACP_ENTITY_ID"))); [reflexivity|].
  destruct (negb (truthy (getSetting env "ACP_AGENT_WALLET_ADDRESS")));
    [reflexivity|].
  run.
  destruct (createAcpContractClient_answer env _ _ _ _) as [built|error|];
    run; rewrite ?sleeps_app; cbn; rewrite ?app_nil_r; try reflexivity.
  destruct (newAcpClient_answer env _ _) as [[]|error|];
    run; rewrite ?sleeps_app; cbn; rewrite ?app_nil_r; reflexivity.
Qed.

(** One round of the loop, given how the attempt ends. *)
Lemma setupClientWithRetry_loop_step env (maxRetries i : nat)
    (rest : list nat) st :
  setupClientWithRetry_loop env maxRetries (i :: rest) st =
    match setupClient env st with
    | (Returned _, st') =>
        (Returned tt,
         after st'
           [EvLog logger Info (Text "ACP client connected successfully") None])
    | (Raised error, st') =>
        if bool_decide (i < maxRetries - 1)
        then setupClientWithRetry_loop env maxRetries rest (waited i error st')
        else
          (Raised error,
           after st'
             [ EvLog logger Error
                 (Text ("ACP client connection attempt " +:+ pretty (i + 1)
                        +:+ " failed:")) (Some error) ])
    | (Pending, st') => (Pending, st')
    end.
Proof.
  cbn [setupClientWithRetry_loop]. unfold try_catch at 1.
  unfold mbind at 1, M_bind at 1.
  destruct (setupClient env st) as [[[]|error|] st']; [reflexivity| |reflexivity].
  unfold mbind at 1, M_bind at 1, log at 1, record at 1.
  destruct (bool_decide (i < maxRetries - 1)); [|reflexivity].
  unfold waited. run. f_equal. f_equal. by rewrite <- !app_assoc.
Qed.

(** C3. [start] tries [setupClient] at most three times.  If an attempt
    returns, the service is started and no further attempt is made.  After
    the failed attempt [i] (counted from 0) that is not the last, the loop
    waits [2^i] seconds: 1000 ms after the first failure, 2000 ms after the
    second.  If the three attempts fail, [start] raises, without waiting
    again, an [Error] whose message names the service and carries the text of
    the third failure. *)
Theorem start_retries env (config : option PartialAcpServiceConfig)
    (history : list Event) :
  let created :=
    new_AcpService config
      (history ++
         [EvLog logger Log (Text "Constructing new AcpService...") None]) in
  let started st :=
    after st
      [ EvLog logger Info (Text "ACP client connected successfully") None;
        EvLog logger Success
          (Text "✅✅✅ ACP service started successfully") None ] in
  (∀ st1,
     setupClient env created = (Returned tt, st1) →
     start env config history = (Returned tt, started st1))
  ∧ (∀ e0 st1 st2,
       setupClient env created = (Raised e0, st1) →
       setupClient env (waited 0 e0 st1) = (Returned tt, st2) →
       start env config history = (Returned tt, started st2)
       ∧ sleeps (trace (started st2)) = sleeps (trace created) ++ [1000%Z])
  ∧ (∀ e0 st1 e1 st2 st3,
       setupClient env created = (Raised e0, st1) →
       setupClient env (waited 0 e0 st1) = (Raised e1, st2) →
       setupClient env (waited 1 e1 st2) = (Returned tt, st3) →
       start env config history = (Returned tt, started st3)
       ∧ sleeps (trace (started st3))
           = sleeps (trace created) ++ [1000%Z; 2000%Z])
  ∧ (∀ e0 st1 e1 st2 e2 st3,
       setupClient env created = (Raised e0, st1) →
       setupClient env (waited 0 e0 st1) = (Raised e1, st2) →
       setupClient env (waited 1 e1 st2) = (Raised e2, st3) →
       let failed :=
         after st3
           [ EvLog logger Error
               (Text "ACP client connection attempt 3 failed:") (Some e2);
             EvLog logger Error
               (Text "❌❌❌Failed to start ACP service:") (Some e2) ] in
       start env config history =
         (Raised (ErrorObj ("Failed to register service " +:+ ACP_SERVICE_NAME
                            +:+ ": " +:+ error_text e2)), failed)
       ∧ sleeps (trace failed) = sleeps (trace created) ++ [1000%Z; 2000%Z])
  ∧ (∀ i error st,
       sleeps (trace (waited i error st))
         = sleeps (trace st) ++ [(2 ^ Z.of_nat i * 1000)%Z])
  ∧ default_maxRetries = 3
  ∧ ACP_SERVICE_NAME = "virtuals-acp".
Proof.
  intros created started.
  assert (∀ i error st,
            sleeps (trace (waited i error st))
              = sleeps (trace st) ++ [(2 ^ Z.of_nat i * 1000)%Z]) as Hwait.
  { intros i error st. unfold waited, after. cbn. by rewrite sleeps_app. }
  assert (∀ st events, sleeps events = [] →
            sleeps (trace (after st events)) = sleeps (trace st)) as Hquiet.
  { intros st events Hnone. unfold after. cbn.
    by rewrite sleeps_app, Hnone, app_nil_r. }
  assert (∀ st o st', setupClient env st = (o, st') →
            sleeps (trace st') = sleeps (trace st)) as Hattempt.
  { intros st o st' Hrun. pose proof (setupClient_sleeps env st) as Hs.
    by rewrite Hrun in Hs. }
  assert (start env config history =
            match setupClientWithRetry_loop env 3 [0; 1; 2] created with
            | (Returned _, st) =>
                (Returned tt,
                 after st
                   [EvLog logger Success
                      (Text "✅✅✅ ACP service started successfully") None])
            | (Raised error, st) =>
                (Raised (ErrorObj ("Failed to register service "
                                   +:+ ACP_SERVICE_NAME +:+ ": "
                                   +:+ error_text error)),
                 after st
                   [EvLog logger Error
                      (Text "❌❌❌Failed to start ACP service:") (Some error)])
            | (Pending, st) => (Pending, st)
            end) as Hstart.
  { unfold start, try_catch, setupClientWithRetry, default_maxRetries.
    cbn [seq]. fold created. unfold mbind at 1, M_bind at 1.
    destruct (setupClientWithRetry_loop env 3 [0; 1; 2] created)
      as [[[]|error|] st]; reflexivity. }
  refine (conj _ (conj _ (conj _ (conj _ (conj Hwait (conj eq_refl eq_refl)))))).
  - intros st1 H0. rewrite Hstart, setupClientWithRetry_loop_step, H0.
    subst started. same_history.
  - intros e0 st1 st2 H0 H1. split.
    + rewrite Hstart, setupClientWithRetry_loop_step, H0.
      rewrite bool_decide_true by (cbn; lia).
      rewrite setupClientWithRetry_loop_step, H1.
      subst started. same_history.
    + subst started. cbv beta. rewrite Hquiet by reflexivity.
      rewrite (Hattempt _ _ _ H1), Hwait, (Hattempt _ _ _ H0). reflexivity.
  - intros e0 st1 e1 st2 st3 H0 H1 H2. split.
    + rewrite Hstart, setupClientWithRetry_loop_step, H0.
      rewrite bool_decide_true by (cbn; lia).
      rewrite setupClientWithRetry_loop_step, H1.
      rewrite bool_decide_true by (cbn; lia).
      rewrite setupClientWithRetry_loop_step, H2.
      subst started. same_history.
    + subst started. cbv beta. rewrite Hquiet by reflexivity.
      rewrite (Hattempt _ _ _ H2), Hwait, (Hattempt _ _ _ H1), Hwait,
        (Hattempt _ _ _ H0).
      by rewrite <- app_assoc.
  - intros e0 st1 e1 st2 e2 st3 H0 H1 H2 failed. split.
    + rewrite Hstart, setupClientWithRetry_loop_step, H0.
      rewrite bool_decide_true by (cbn; lia).
      rewrite setupClientWithRetry_loop_step, H1.
      rewrite bool_decide_true by (cbn; lia).
      rewrite setupClientWithRetry_loop_step, H2.
      rewrite bool_decide_false by (cbn; lia).
      subst failed. same_history.
    + subst failed. rewrite Hquiet by reflexivity.
      rewrite (Hattempt _ _ _ H2), Hwait, (Hattempt _ _ _ H1), Hwait,
        (Hattempt _ _ _ H0).
      by rewrite <- app_assoc.
Qed.

End Properties.

(** * The properties on concrete runs *)

Import Sample.



(** C2.  With phase TRANSACTION and next phase EVALUATION, a failure raised
    while the job is being submitted to the pipeline (here
    [runtime.ensureConnection] rejects, or [emitEvent] throws in the promise
    executor) ends in the [catch] of [processJobWithEliza]: the error is
    logged and the job receives no call at all, neither a rejection nor a
    delivery. *)
Theorem submission_failure_is_not_rejected :
  let job := job TRANSACTION (Some "chat") in
  let memo := memo EVALUATION in
  let lost := processJobWithEliza (env_of connection_fails) job (Some memo)
                service in
  let thrown := processJobWithEliza (env_of emit_throws) job (Some memo)
                  service in
  lost =
    (Returned tt,
     after service
       [ transaction_opened (env_of connection_fails) job;
         EvEnsureConnection job;
         EvLog elizaLogger Error (Text "Error in processJobWithEliza")
           (Some network_down) ])
  ∧ count is_reject (job_calls (trace lost.2)) = 0
  ∧ job_calls (trace lost.2) = []
  ∧ thrown =
      (Returned tt,
       after service
         [ transaction_opened (env_of emit_throws) job;
           EvEnsureConnection job;
           EvEmitMessageReceived job (Some memo);
           EvLog elizaLogger Error (Text "Error in processJobWithEliza")
             (Some network_down) ])
  ∧ count is_reject (job_calls (trace thrown.2)) = 0.
Proof. vm_compute. repeat split; reflexivity. Qed.

(** C3 on two runs: the contract client can never be built, and it is built
    at the third attempt. *)
Lemma start_retries_witness :
  let failing := start (env_of build_fails) None [] in
  let late := start (env_of build_third) None [] in
  failing.1 =
    Raised (ErrorObj "Failed to register service virtuals-acp: network down")
  ∧ sleeps (trace failing.2) = [1000%Z; 2000%Z]
  ∧ contract_client_builds (trace failing.2) = 3
  ∧ late.1 = Returned tt
  ∧ sleeps (trace late.2) = [1000%Z; 2000%Z]
  ∧ contract_client_builds (trace late.2) = 3.
Proof.
  destruct (start_retries (env_of build_fails) None [])
    as (_ & _ & _ & Hfail & _).
  edestruct Hfail as [Hstart Hsleeps];
    [vm_compute; reflexivity | vm_compute; reflexivity
    | vm_compute; reflexivity |].
  destruct (start_retries (env_of build_third) None [])
    as (_ & _ & Hlate & _).
  edestruct Hlate as [Hstarted Hwaited];
    [vm_compute; reflexivity | vm_compute; reflexivity
    | vm_compute; reflexivity |].
  cbv zeta. rewrite Hstart, Hstarted. cbn [fst snd].
  rewrite Hsleeps, Hwaited.
  repeat split; vm_compute; reflexivity.
Defined.

(** C4, as stated in the specification, fails.  The capability check
    permits, the accept call is made and rejects; the error is caught and
    the requirement-creation call is never made. *)
Lemma request_phase_accept_failure :
  let run := processJobWithEliza (env_of accept_fails)
               (job REQUEST (Some "chat")) (Some (memo NEGOTIATION)) service in
  checkElizaCapability (job REQUEST (Some "chat"))
    (after service
       [request_opened (env_of accept_fails) (job REQUEST (Some "chat"))])
    = (Returned true,
       after service
         [request_opened (env_of accept_fails) (job REQUEST (Some "chat"))])
  ∧ job_calls (trace run.2) = [Accept "Job requirement matches agent capability"]
  ∧ count is_accept (job_calls (trace run.2)) = 1
  ∧ count is_createRequirement (job_calls (trace run.2)) = 0.
Proof. vm_compute. repeat split; reflexivity. Qed.

(** The amended C4 on two runs: the service's own capability check, and a
    check that refuses. *)
Lemma request_phase_calls_witness :
  let job := job REQUEST (Some "chat") in
  let memo := memo NEGOTIATION in
  let deny : AcpJob → M bool := λ _, mret false in
  job_calls (trace (processJobWithEliza (env_of calm) job (Some memo) service).2)
    = [ Accept "Job requirement matches agent capability";
        CreateRequirement "Job 5 accepted, please make payment to proceed" ]
  ∧ job_calls
      (trace (processJobWithEliza_with (env_of calm) deny job (Some memo)
                service).2)
    = [ Reject "Job requirement does not meet agent capability" ].
Proof.
  split.
  - apply (request_phase_calls (env_of calm) checkElizaCapability
             (job REQUEST (Some "chat")) (memo NEGOTIATION) service true
             (after service
                [request_opened (env_of calm) (job REQUEST (Some "chat"))]));
      reflexivity.
  - apply (request_phase_calls (env_of calm) (λ _, mret false)
             (job REQUEST (Some "chat")) (memo NEGOTIATION) service false
             (after service
                [request_opened (env_of calm) (job REQUEST (Some "chat"))]));
      reflexivity.
Defined.

(** C5 on a run: the handler of ["dca"] accepts the job and then throws. *)
Lemma handleNewTask_swallows_handler_failure_witness :
  let job := job TRANSACTION (Some "dca") in
  let memo := memo EVALUATION in
  registry !! "dca"
    = Some {| handlerType := "predetermined"; handler := Some 0 |}
  ∧ handleNewTask (env_of handler_throws) job (Some memo) service =
      (Returned tt,
       after service
         [ EvLog logger Info (OnNewTaskDebug job (Some memo)) None;
           EvClient (GetAccountByJobId (Some 5%Z));
           EvLog logger Info (JobAccountDebug "account#1") None;
           EvJob (Some 5%Z) (Accept "Position accepted");
           EvLog logger Error
             (Text "[handleNewTask] Error in predetermined handler for dca:")
             (Some (ErrorObj "position not found")) ]).
Proof.
  split; [vm_compute; reflexivity|].
  rewrite (handleNewTask_swallows_handler_failure (env_of handler_throws)
             (job TRANSACTION (Some "dca")) (Some (memo EVALUATION)) service
             "account#1" "dca"
             {| handlerType := "predetermined"; handler := Some 0 |} 0
             (ErrorObj "position not found")
             (after service
                [ EvLog logger Info
                    (OnNewTaskDebug (job TRANSACTION (Some "dca"))
                       (Some (memo EVALUATION))) None;
                  EvClient (GetAccountByJobId (Some 5%Z));
                  EvLog logger Info (JobAccountDebug "account#1") None;
                  EvJob (Some 5%Z) (Accept "Position accepted") ])).
  - reflexivity.
  - reflexivity.
  - reflexivity.
  - reflexivity.
  - discriminate.
  - vm_compute. reflexivity.
  - reflexivity.
  - reflexivity.
  - reflexivity.
Defined.

(** C7 on two runs: a query the client rejects and a query it answers. *)
Lemma forwarding_passes_through_witness :
  let failed := run_forwarding (env_of client_down) (OpGetJobById "5") service in
  let answered :=
    run_forwarding (env_of calm) (OpGetMemoById "5" "9") service in
  client service = true
  ∧ failed.1 = Raised network_down
  ∧ client_calls (trace failed.2) = [GetJobById (Some 5%Z)]
  ∧ answered =
      (Returned "account#1",
       after service [EvClient (GetMemoById (Some 5%Z) (Some 9%Z))]).
Proof.
  split; [reflexivity|].
  destruct (forwarding_passes_through (env_of client_down) (OpGetJobById "5")
              service eq_refl) as [message Hfailed].
  destruct (forwarding_passes_through (env_of calm) (OpGetMemoById "5" "9")
              service eq_refl) as [message' Hanswered].
  cbv zeta. rewrite Hfailed, Hanswered.
  repeat split; vm_compute; reflexivity.
Defined.

(** C8 on a run: the entry of ["legacy"] has the handler type ["webhook"]. *)
Lemma handleNewTask_unknown_handlerType_witness :
  let job := job REQUEST (Some "legacy") in
  let memo := memo NEGOTIATION in
  registry !! "legacy" = Some {| handlerType := "webhook"; handler := None |}
  ∧ handleNewTask (env_of calm) job (Some memo) service
      = arrival (env_of calm) job (Some memo) service.
Proof.
  split; [vm_compute; reflexivity|].
  apply (handleNewTask_unknown_handlerType (env_of calm)
           (job REQUEST (Some "legacy")) (Some (memo NEGOTIATION)) service
           "legacy" {| handlerType := "webhook"; handler := None |}).
  - reflexivity.
  - discriminate.
  - vm_compute. reflexivity.
  - discriminate.
  - discriminate.
Defined.

(** C10 on a run: the pipeline replies ["done"] and the response memory
    cannot be stored. *)
Lemma reply_callback_failure_rejects_witness :
  let job := job TRANSACTION (Some "chat") in
  let memo := memo EVALUATION in
  let run := processJobWithEliza (env_of memory_fails) job (Some memo) service in
  on_emit memory_fails = Reply {| content_text := Some "done" |}
  ∧ on_memory memory_fails = Raised network_down
  ∧ job_calls (trace run.2) = [Reject "Unable to process job requirement"]
  ∧ count is_deliver (job_calls (trace run.2)) = 0.
Proof.
  split; [reflexivity|]. split; [reflexivity|].
  destruct (reply_callback_failure_rejects (env_of memory_fails)
              (job TRANSACTION (Some "chat")) (memo EVALUATION) service
              {| content_text := Some "done" |} "done" network_down)
    as (_ & Hcalls & _);
    [reflexivity | reflexivity | reflexivity | reflexivity | reflexivity
    | discriminate | reflexivity |].
  cbv zeta. rewrite Hcalls. split; reflexivity.
Defined.

(** * Further properties of the service *)

Section Further.

Context {JsNumber JsValue : Type}.

#[local] Abbreviation Env := (@Env JsNumber JsValue).
#[local] Abbreviation State := (@State JsNumber JsValue).
#[local] Abbreviation AcpJob := (@AcpJob JsNumber JsValue).
#[local] Abbreviation AcpMemo := (@AcpMemo JsNumber JsValue).
#[local] Abbreviation Event := (@Event JsNumber JsValue).
#[local] Abbreviation M := (@M JsNumber JsValue).

Implicit Types (env : Env) (st : State) (job : AcpJob)
  (memoToSign : option AcpMemo) (error : Thrown).

(** A [catch] block that only logs turns every failure into a return. *)
Lemma try_catch_log_settles (body : M unit) (who : Logger) (level : LogLevel)
    (msg : LogMsg) st error :
  (try_catch body (λ e, log who level msg (Some e)) st).1 ≠ Raised error.
Proof.
  unfold try_catch. destruct (body st) as [[[]|e|] st']; run; discriminate.
Qed.

(** X1. [processJobWithEliza] never raises, whatever the job, the memo, the
    capability check, the job object and the runtime do: its outcome is a
    return or a promise that stays pending. *)
Theorem processJobWithEliza_never_raises env (checkCapability : AcpJob → M bool)
    job memoToSign st error :
  (processJobWithEliza_with env checkCapability job memoToSign st).1
    ≠ Raised error.
Proof.
  unfold processJobWithEliza_with, try_catch.
  match goal with |- context [match ?body st with _ => _ end] =>
    destruct (body st) as [[[]|e|] st'] end; run; discriminate.
Qed.

(** X2. Outside the two recognised transitions (REQUEST with next phase
    NEGOTIATION, TRANSACTION with next phase EVALUATION), and so always when
    no memo is passed, [processJobWithEliza] only writes one warning: the
    capability check is not consulted and neither the job nor the runtime is
    called. *)
Theorem processJobWithEliza_unhandled env (checkCapability : AcpJob → M bool)
    job memoToSign st :
  (job_phase job, memo_nextPhase <$> memoToSign) ≠ (REQUEST, Some NEGOTIATION) →
  (job_phase job, memo_nextPhase <$> memoToSign) ≠ (TRANSACTION, Some EVALUATION) →
  processJobWithEliza_with env checkCapability job memoToSign st =
    (Returned tt,
     after st
       [ EvLog logger Warn
           (UnhandledPhase (js_String env (job_id job)) (job_phase job)
              (memo_nextPhase <$> memoToSign)) None ]).
Proof.
  intros Hrequest Htransaction.
  unfold processJobWithEliza_with, try_catch. cbv zeta.
  rewrite bool_decide_false by (intros [H1 H2]; apply Hrequest; congruence).
  rewrite bool_decide_false by (intros [H1 H2]; apply Htransaction; congruence).
  reflexivity.
Qed.

(** X3. The only error that leaves [handleNewTask] is the one of its opening
    account lookup: whenever [handleNewTask] raises, it ends exactly as its
    statements before the routing do, so nothing was routed.  A failure of a
    handler or of the Eliza path never reaches the caller. *)
Theorem handleNewTask_raises_only_on_arrival env job memoToSign st error :
  (handleNewTask env job memoToSign st).1 = Raised error →
  handleNewTask env job memoToSign st = arrival env job memoToSign st.
Proof.
  rewrite handleNewTask_after_arrival.
  destruct (arrival env job memoToSign st) as [[[]|e|] st']; try done.
  intros Hraised. exfalso. revert Hraised.
  destruct (if truthy (job_name job) then _ else _) as [| |config];
    [discriminate|discriminate|].
  destruct (bool_decide (handlerType config = "predetermined")).
  - destruct (handler config) as [f|]; [|discriminate].
    apply try_catch_log_settles.
  - destruct (bool_decide (handlerType config = "eliza")); [|discriminate].
    unfold processJobWithEliza, processJobWithEliza_with, try_catch.
    match goal with |- context [match ?body st' with _ => _ end] =>
      destruct (body st') as [[[]|e|] st''] end; run; discriminate.
Qed.

(** X4. When the client rejects the opening account lookup, [handleNewTask]
    raises that same error whatever the registry holds: the error is logged
    by [getAccountByJobId], no handler runs and no call is made on the job. *)
Theorem handleNewTask_lookup_failure env job memoToSign st error :
  client st = true →
  client_answer env
    (trace st ++ [EvLog logger Info (OnNewTaskDebug job memoToSign) None])
    (account_lookup env job) = Raised error →
  handleNewTask env job memoToSign st =
    (Raised error,
     after st
       [ EvLog logger Info (OnNewTaskDebug job memoToSign) None;
         EvClient (account_lookup env job);
         EvLog logger Error (Text "Error getting account by job ID:")
           (Some error) ]).
Proof.
  intros Hclient Hanswer.
  rewrite handleNewTask_after_arrival.
  unfold arrival, getAccountByJobId. run.
  rewrite forward_run by exact Hclient. cbn.
  unfold account_lookup in Hanswer. rewrite Hanswer.
  unfold account_lookup. same_history.
Qed.

(** X5. A ["predetermined"] entry without a handler function is tolerated:
    once the account lookup has returned, the router writes a warning naming
    the job type, makes no call and returns normally. *)
Theorem handleNewTask_missing_handler env job memoToSign st
    (account : JsValue) (key : string) (config : JobTypeConfig) :
  client st = true →
  client_answer env
    (trace st ++ [EvLog logger Info (OnNewTaskDebug job memoToSign) None])
    (account_lookup env job) = Returned account →
  job_name job = Some key →
  key ≠ "" →
  jobTypeRegistry st !! key = Some config →
  handlerType config = "predetermined" →
  handler config = None →
  handleNewTask env job memoToSign st =
    (Returned tt,
     after (arrived env job memoToSign account st)
       [ EvLog logger Warn
           (Text ("[handleNewTask] No handler function provided for predetermined job type: "
                  +:+ key)) None ]).
Proof.
  intros Hclient Hanswer Hname Hkey Hentry Hpre Hnone.
  rewrite handleNewTask_after_arrival.
  rewrite (arrival_returns _ _ _ _ _ Hclient Hanswer).
  rewrite Hname. cbn. rewrite (bool_decide_false _ Hkey). cbn.
  unfold get_property. rewrite Hentry.
  rewrite (bool_decide_true _ Hpre), Hnone. reflexivity.
Qed.

(** X6. A job without a name, or with the empty name, is never routed, even
    when the registry has an entry under the empty key: once the account
    lookup has returned, the router only writes the warning. *)
Theorem handleNewTask_nameless env job memoToSign st (account : JsValue) :
  client st = true →
  client_answer env
    (trace st ++ [EvLog logger Info (OnNewTaskDebug job memoToSign) None])
    (account_lookup env job) = Returned account →
  job_name job = None ∨ job_name job = Some "" →
  handleNewTask env job memoToSign st =
    (Returned tt,
     after (arrived env job memoToSign account st)
       [ EvLog logger Warn
           (Text ("[handleNewTask] No configuration found for job type: "
                  +:+ interpolate (job_name job))) None ]).
Proof.
  intros Hclient Hanswer Hname.
  rewrite handleNewTask_after_arrival.
  rewrite (arrival_returns _ _ _ _ _ Hclient Hanswer).
  destruct Hname as [-> | ->]; reflexivity.
Qed.

(** X7. Registering a job type and then receiving a job of that type calls
    the registered handler: after [updateJobTypeRegistry] with an update that
    maps a non-empty name to a ["predetermined"] entry with handler [f], a
    job of that name, once its account lookup has returned, is handed to [f]
    and [handleNewTask] ends as [f] does when [f] returns.  This holds also
    for names such as ["toString"] that [Object.prototype] defines. *)
Theorem register_then_route env job memoToSign st
    (update : gmap string JobTypeConfig) (account : JsValue) (key : string)
    (config : JobTypeConfig) (f : FunRef) (st' : State) :
  let registered := (updateJobTypeRegistry update st).2 in
  client st = true →
  client_answer env
    (trace registered
       ++ [EvLog logger Info (OnNewTaskDebug job memoToSign) None])
    (account_lookup env job) = Returned account →
  job_name job = Some key →
  key ≠ "" →
  update !! key = Some config →
  handlerType config = "predetermined" →
  handler config = Some f →
  apply_handler env f job memoToSign
    (arrived env job memoToSign account registered) = (Returned tt, st') →
  (updateJobTypeRegistry update ;; handleNewTask env job memoToSign) st
    = (Returned tt, st').
Proof.
  intros registered Hclient Hanswer Hname Hkey Hentry Hpre Hf Hreturned.
  assert ((updateJobTypeRegistry update ;; handleNewTask env job memoToSign) st
            = handleNewTask env job memoToSign registered) as -> by reflexivity.
  assert (jobTypeRegistry registered !! key = Some config) as Hregistered.
  { subst registered.
    change (spread2 (jobTypeRegistry st) update !! key = Some config).
    by rewrite spread2_lookup, Hentry. }
  assert (client registered = true) as Hclient' by exact Hclient.
  clearbody registered.
  rewrite handleNewTask_after_arrival.
  rewrite (arrival_returns _ _ _ _ _ Hclient' Hanswer).
  rewrite Hname. cbn. rewrite (bool_decide_false _ Hkey). cbn.
  unfold get_property. rewrite Hregistered.
  rewrite (bool_decide_true _ Hpre), Hf.
  unfold try_catch. rewrite Hreturned. reflexivity.
Qed.

(** ** The registry, continued *)

(** X8. Two registry updates in a row leave the registry as the single
    update by their spread [{...first, ...second}] does, so on a key that
    occurs in both the later update wins; an empty update changes no entry. *)
Theorem updateJobTypeRegistry_composes st
    (first second : gmap string JobTypeConfig) :
  jobTypeRegistry
    ((updateJobTypeRegistry first ;; updateJobTypeRegistry second) st).2
    = jobTypeRegistry (updateJobTypeRegistry (spread2 first second) st).2
  ∧ (∀ key entry, second !! key = Some entry →
       jobTypeRegistry
         ((updateJobTypeRegistry first ;; updateJobTypeRegistry second) st).2
         !! key = Some entry)
  ∧ jobTypeRegistry (updateJobTypeRegistry ∅ st).2 = jobTypeRegistry st.
Proof.
  assert (jobTypeRegistry
            ((updateJobTypeRegistry first ;; updateJobTypeRegistry second) st).2
          = spread2 (spread2 (jobTypeRegistry st) first) second) as ->
    by reflexivity.
  change (jobTypeRegistry (updateJobTypeRegistry (spread2 first second) st).2)
    with (spread2 (jobTypeRegistry st) (spread2 first second)).
  change (jobTypeRegistry (updateJobTypeRegistry ∅ st).2)
    with (spread2 (jobTypeRegistry st) ∅).
  split; [|split].
  - apply map_eq; intros key. rewrite !spread2_lookup.
    destruct (second !! key); reflexivity.
  - intros key entry Hentry. by rewrite spread2_lookup, Hentry.
  - apply map_eq; intros key. by rewrite spread2_lookup, lookup_empty.
Qed.


(** ** Forwarding, continued *)

(** X10. On a service whose client was never assigned, every forwarding
    method fails without reaching the network: reading the method off the
    missing client throws, the error is logged and raised, and no client call
    is recorded. *)
Theorem forwarding_without_client env (op : ForwardingOp) st :
  client st = false →
  ∃ (error : Thrown) (message : string),
    run_forwarding env op st =
      (Raised error,
       after st [EvLog logger Error (Text message) (Some error)])
    ∧ client_calls (trace (run_forwarding env op st).2)
        = client_calls (trace st).
Proof.
  intros Hclient.
  assert (∀ method call message,
    ∃ error, forward env method call message st =
      (Raised error,
       after st [EvLog logger Error (Text message) (Some error)])) as Hforward.
  { intros method call message. eexists.
    unfold forward, try_catch, client_call. rewrite Hclient. reflexivity. }
  assert (∀ error message,
    client_calls
      (trace (after st [EvLog logger Error (Text message) (Some error)]))
      = client_calls (trace st)) as Hcalls.
  { intros error message. cbn.
    induction (trace st) as [|ev tr IH]; [reflexivity|].
    destruct ev; cbn; by rewrite ?IH. }
  destruct op; cbn [run_forwarding];
    unfold getActiveJobs, getCompletedJobs, getCancelledJobs,
      getPendingMemoJobs, getJobById, getMemoById, getAccountByJobId,
      getByClientAndProvider;
    match goal with |- context [forward env ?m ?c ?msg st] =>
      destruct (Hforward m c msg) as [error Herror] end;
    exists error; eexists; rewrite Herror; (split; [reflexivity|apply Hcalls]).
Qed.

(** ** Connection bootstrap, continued *)

(** X11. [setupClient] checks the three settings in order before anything
    else: when the private key is missing or empty it throws
    "ACP_WALLET_PRIVATE_KEY is required", otherwise when the entity id is
    missing "ACP_ENTITY_ID is required", otherwise when the agent address is
    missing "ACP_AGENT_WALLET_ADDRESS is required"; in each case nothing is
    built, logged or changed. *)
Theorem setupClient_requires_settings env st :
  (truthy (getSetting env "ACP_WALLET_PRIVATE_KEY") = false →
     setupClient env st
       = (Raised (ErrorObj "ACP_WALLET_PRIVATE_KEY is required"), st))
  ∧ (truthy (getSetting env "ACP_WALLET_PRIVATE_KEY") = true →
     truthy (getSetting env "ACP_ENTITY_ID") = false →
     setupClient env st = (Raised (ErrorObj "ACP_ENTITY_ID is required"), st))
  ∧ (truthy (getSetting env "ACP_WALLET_PRIVATE_KEY") = true →
     truthy (getSetting env "ACP_ENTITY_ID") = true →
     truthy (getSetting env "ACP_AGENT_WALLET_ADDRESS") = false →
     setupClient env st
       = (Raised (ErrorObj "ACP_AGENT_WALLET_ADDRESS is required"), st)).
Proof.
  unfold setupClient. repeat split.
  - intros ->. reflexivity.
  - intros -> ->. reflexivity.
  - intros -> -> ->. reflexivity.
Qed.

(** What one attempt does to the service object. *)
Lemma setupClient_state env st :
  jobTypeRegistry (setupClient env st).2 = jobTypeRegistry st
  ∧ ((setupClient env st).1 = Returned tt → client (setupClient env st).2 = true)
  ∧ ((setupClient env st).1 ≠ Returned tt →
       client (setupClient env st).2 = client st).
Proof.
  unfold setupClient.
  destruct (negb (truthy (getSetting env "ACP_WALLET_PRIVATE_KEY")));
    [by repeat split|].
  destruct (negb (truthy (getSetting env "ACP_ENTITY_ID")));
    [by repeat split|].
  destruct (negb (truthy (getSetting env "ACP_AGENT_WALLET_ADDRESS")));
    [by repeat split|].
  run.
  destruct (createAcpContractClient_answer env _ _ _ _) as [built|error|];
    run; [|by repeat split..].
  destruct (newAcpClient_answer env _ _) as [[]|error|]; run;
    by repeat split.
Qed.

(** X12. A failed attempt leaves no partial state: [setupClient] never
    touches the registry, assigns [client] exactly when it returns, and when
    it raises or stays pending [client] is what it was before. *)
Theorem setupClient_assigns_on_success env st :
  let attempt := setupClient env st in
  jobTypeRegistry attempt.2 = jobTypeRegistry st
  ∧ (attempt.1 = Returned tt → client attempt.2 = true)
  ∧ (attempt.1 ≠ Returned tt → client attempt.2 = client st).
Proof.
  cbv zeta. unfold setupClient.
  destruct (negb (truthy (getSetting env "ACP_WALLET_PRIVATE_KEY")));
    [by repeat split|].
  destruct (negb (truthy (getSetting env "ACP_ENTITY_ID")));
    [by repeat split|].
  destruct (negb (truthy (getSetting env "ACP_AGENT_WALLET_ADDRESS")));
    [by repeat split|].
  run.
  destruct (createAcpContractClient_answer env _ _ _ _) as [built|error|];
    run; [|by repeat split..].
  destruct (newAcpClient_answer env _ _) as [[]|error|]; run;
    by repeat split.
Qed.

(** [start], given how the retry loop ends. *)
Lemma start_run env (config : option PartialAcpServiceConfig)
    (history : list Event) :
  start env config history =
    match setupClientWithRetry env default_maxRetries
            (new_AcpService config
               (history ++
                  [EvLog logger Log (Text "Constructing new AcpService...")
                     None])) with
    | (Returned _, st) =>
        (Returned tt,
         after st
           [EvLog logger Success
              (Text "✅✅✅ ACP service started successfully") None])
    | (Raised error, st) =>
        (Raised (ErrorObj ("Failed to register service " +:+ ACP_SERVICE_NAME
                           +:+ ": " +:+ error_text error)),
         after st
           [EvLog logger Error (Text "❌❌❌Failed to start ACP service:")
              (Some error)])
    | (Pending, st) => (Pending, st)
    end.
Proof.
  unfold start, try_catch. unfold mbind at 1, M_bind at 1.
  destruct (setupClientWithRetry env default_maxRetries _)
    as [[[]|error|] st]; reflexivity.
Qed.

Lemma setupClientWithRetry_loop_registry env (maxRetries : nat)
    (indices : list nat) st :
  jobTypeRegistry (setupClientWithRetry_loop env maxRetries indices st).2
    = jobTypeRegistry st.
Proof.
  revert st. induction indices as [|i rest IH]; intros st; [reflexivity|].
  rewrite setupClientWithRetry_loop_step.
  pose proof (setupClient_state env st) as [Hregistry _].
  destruct (setupClient env st) as [[[]|error|] st1]; cbn in Hregistry;
    [exact Hregistry| |exact Hregistry].
  destruct (bool_decide (i < maxRetries - 1)); [|exact Hregistry].
  rewrite IH. exact Hregistry.
Qed.

Lemma setupClientWithRetry_loop_connected env (maxRetries n i : nat) st :
  i + n = maxRetries →
  n ≠ 0 →
  (setupClientWithRetry_loop env maxRetries (seq i n) st).1 = Returned tt →
  client (setupClientWithRetry_loop env maxRetries (seq i n) st).2 = true.
Proof.
  revert i st. induction n as [|n IH]; intros i st Hsum Hn; [done|].
  cbn [seq]. rewrite setupClientWithRetry_loop_step.
  pose proof (setupClient_state env st) as (_ & Hassigned & _).
  destruct (setupClient env st) as [[[]|error|] st1]; cbn in Hassigned;
    [intros _; by apply Hassigned| |discriminate].
  case_bool_decide as Hmore; [|discriminate].
  apply IH; lia.
Qed.

(** X13. A service that [start] returns is connected and configured: its
    client has been assigned and its registry is the one the constructor
    built from the configuration. *)
Theorem start_returns_connected env (config : option PartialAcpServiceConfig)
    (history : list Event) (service : State) :
  start env config history = (Returned tt, service) →
  client service = true
  ∧ jobTypeRegistry service = constructor_registry config.
Proof.
  rewrite start_run. unfold setupClientWithRetry, default_maxRetries.
  set (created := new_AcpService config _).
  pose proof (setupClientWithRetry_loop_registry env 3 (seq 0 3) created)
    as Hregistry.
  pose proof (setupClientWithRetry_loop_connected env 3 3 0 created
                eq_refl ltac:(done)) as Hclient.
  destruct (setupClientWithRetry_loop env 3 (seq 0 3) created)
    as [[[]|error|] st]; [|discriminate..].
  intros [= <-]. split; [by apply Hclient|exact Hregistry].
Qed.

(** When a setting is missing, every attempt fails on the first missing one,
    in the order [setupClient] checks them. *)
Lemma setupClient_missing env :
  truthy (getSetting env "ACP_WALLET_PRIVATE_KEY")
    && truthy (getSetting env "ACP_ENTITY_ID")
    && truthy (getSetting env "ACP_AGENT_WALLET_ADDRESS") = false →
  let name :=
    if negb (truthy (getSetting env "ACP_WALLET_PRIVATE_KEY"))
    then "ACP_WALLET_PRIVATE_KEY"
    else if negb (truthy (getSetting env "ACP_ENTITY_ID"))
    then "ACP_ENTITY_ID"
    else "ACP_AGENT_WALLET_ADDRESS" in
  ∀ st, setupClient env st = (Raised (ErrorObj (name +:+ " is required")), st).
Proof.
  intros Hmissing name st. subst name. unfold setupClient.
  destruct (truthy (getSetting env "ACP_WALLET_PRIVATE_KEY")); [|done].
  destruct (truthy (getSetting env "ACP_ENTITY_ID")); [|done].
  destruct (truthy (getSetting env "ACP_AGENT_WALLET_ADDRESS")); done.
Qed.

(** X14. A missing setting is retried like a network failure.  When one of
    the three required settings is missing or empty, [start] makes its three
    attempts, waits 1000 ms and 2000 ms between them, builds no contract
    client, and then raises "Failed to register service virtuals-acp: <NAME>
    is required", where <NAME> is the first missing setting in the order
    ACP_WALLET_PRIVATE_KEY, ACP_ENTITY_ID, ACP_AGENT_WALLET_ADDRESS; the
    service object it leaves has no client. *)
Theorem start_missing_setting env (config : option PartialAcpServiceConfig)
    (history : list Event) :
  truthy (getSetting env "ACP_WALLET_PRIVATE_KEY")
    && truthy (getSetting env "ACP_ENTITY_ID")
    && truthy (getSetting env "ACP_AGENT_WALLET_ADDRESS") = false →
  let name :=
    if negb (truthy (getSetting env "ACP_WALLET_PRIVATE_KEY"))
    then "ACP_WALLET_PRIVATE_KEY"
    else if negb (truthy (getSetting env "ACP_ENTITY_ID"))
    then "ACP_ENTITY_ID"
    else "ACP_AGENT_WALLET_ADDRESS" in
  let missing := ErrorObj (name +:+ " is required") in
  start env config history =
    (Raised (ErrorObj ("Failed to register service virtuals-acp: "
                       +:+ name +:+ " is required")),
     {| jobTypeRegistry := constructor_registry config;
        client := false;
        trace :=
          history ++
          [ EvLog logger Log (Text "Constructing new AcpService...") None;
            EvLog logger Error
              (Text "ACP client connection attempt 1 failed:") (Some missing);
            EvLog logger Info (Text "Retrying in 1000ms...") None;
            EvSleep 1000;
            EvLog logger Error
              (Text "ACP client connection attempt 2 failed:") (Some missing);
            EvLog logger Info (Text "Retrying in 2000ms...") None;
            EvSleep 2000;
            EvLog logger Error
              (Text "ACP client connection attempt 3 failed:") (Some missing);
            EvLog logger Error
              (Text "❌❌❌Failed to start ACP service:") (Some missing) ] |}).
Proof.
  intros Hmissing name missing.
  pose proof (setupClient_missing env Hmissing) as Hfails.
  cbv zeta in Hfails. fold name in Hfails.
  rewrite start_run. unfold setupClientWithRetry, default_maxRetries.
  cbn [seq].
  rewrite setupClientWithRetry_loop_step, Hfails.
  rewrite bool_decide_true by (cbn; lia).
  rewrite setupClientWithRetry_loop_step, Hfails.
  rewrite bool_decide_true by (cbn; lia).
  rewrite setupClientWithRetry_loop_step, Hfails.
  rewrite bool_decide_false by (cbn; lia).
  unfold waited, after, with_trace, new_AcpService. cbn.
  rewrite <- !app_assoc. reflexivity.
Qed.

(** The waits of the rounds [i], [i + 1], ... of the loop. *)
Lemma setupClientWithRetry_loop_sleeps env (maxRetries n i : nat) st :
  i + n = maxRetries →
  ∃ k : nat,
    (k ≤ n - 1)%nat
    ∧ sleeps (trace (setupClientWithRetry_loop env maxRetries (seq i n) st).2)
        = sleeps (trace st) ++ map backoff_delay (seq i k).
Proof.
  revert i st. induction n as [|n IH]; intros i st Hsum.
  { exists 0. split; [lia|]. cbn. by rewrite app_nil_r. }
  cbn [seq]. rewrite setupClientWithRetry_loop_step.
  pose proof (setupClient_sleeps env st) as Hquiet.
  destruct (setupClient env st) as [[[]|error|] st1]; cbn in Hquiet.
  - exists 0. split; [lia|]. cbn. rewrite sleeps_app, Hquiet. reflexivity.
  - case_bool_decide as Hmore.
    + destruct (IH (S i) (waited i error st1) ltac:(lia)) as (k & Hk & Hsleeps).
      exists (S k). split; [lia|]. rewrite Hsleeps.
      unfold waited, after. cbn. rewrite sleeps_app, Hquiet. cbn.
      by rewrite <- app_assoc.
    + exists 0. split; [lia|]. cbn. rewrite sleeps_app, Hquiet. reflexivity.
  - exists 0. split; [lia|]. cbn. by rewrite Hquiet, app_nil_r.
Qed.

Lemma backoff_total (k : nat) :
  foldr Z.add 0%Z (map backoff_delay (seq 0 k))
    = ((2 ^ Z.of_nat k - 1) * 1000)%Z.
Proof.
  induction k as [|k IH]; [reflexivity|].
  rewrite seq_S, map_app, foldr_app. cbn [map foldr plus].
  assert (∀ (l : list Z) (z : Z),
            foldr Z.add z l = (foldr Z.add 0 l + z)%Z) as Hshift.
  { intros l z. induction l as [|x l IHl]; cbn; [lia|]. rewrite IHl. lia. }
  rewrite Hshift, IH. unfold backoff_delay.
  rewrite Nat2Z.inj_succ, Z.pow_succ_r by lia. lia.
Qed.

(** X15. For every retry limit up to 23 and whatever the attempts do,
    [setupClientWithRetry] waits at most [maxRetries - 1] times; the waits
    are 1000 ms, 2000 ms, 4000 ms, ... in this order, each twice the one
    before; every one of them is at most 2^31 - 1 ms, the longest delay a
    timer honours; and together they stay below [2^(maxRetries - 1)]
    seconds.  (Up to this limit [Math.pow(2, i) * 1000] is an exact
    integer.) *)
Theorem setupClientWithRetry_waits env (maxRetries : nat) st :
  (maxRetries ≤ 23)%nat →
  ∃ k : nat,
    (k ≤ maxRetries - 1)%nat
    ∧ sleeps (trace (setupClientWithRetry env maxRetries st).2)
        = sleeps (trace st) ++ map backoff_delay (seq 0 k)
    ∧ Forall (λ ms, (1000 ≤ ms ≤ 2147483647)%Z) (map backoff_delay (seq 0 k))
    ∧ (foldr Z.add 0 (map backoff_delay (seq 0 k))
         ≤ (2 ^ Z.of_nat (maxRetries - 1) - 1) * 1000)%Z
    ∧ ∀ i : nat, (S i < k)%nat → backoff_delay (S i) = (2 * backoff_delay i)%Z.
Proof.
  intros Hlimit.
  destruct (setupClientWithRetry_loop_sleeps env maxRetries maxRetries 0 st
              eq_refl) as (k & Hk & Hsleeps).
  exists k. split; [exact Hk|]. split; [exact Hsleeps|]. split; [|split].
  - apply Forall_forall. intros ms Hms.
    apply list_elem_of_In, in_map_iff in Hms as (i & <- & Hi).
    apply in_seq in Hi. unfold backoff_delay.
    assert (2 ^ 0 ≤ 2 ^ Z.of_nat i)%Z by (apply Z.pow_le_mono_r; lia).
    assert (2 ^ Z.of_nat i ≤ 2 ^ 21)%Z by (apply Z.pow_le_mono_r; lia).
    lia.
  - rewrite backoff_total.
    assert (2 ^ Z.of_nat k ≤ 2 ^ Z.of_nat (maxRetries - 1))%Z
      by (apply Z.pow_le_mono_r; lia).
    lia.
  - intros i _. unfold backoff_delay.
    rewrite Nat2Z.inj_succ, Z.pow_succ_r by lia. lia.
Qed.

Lemma setupClientWithRetry_loop_exhausted env (maxRetries n i : nat) st error :
  (∀ st', setupClient env st' = (Raised error, st')) →
  i + S n = maxRetries →
  (setupClientWithRetry_loop env maxRetries (seq i (S n)) st).1 = Raised error
  ∧ sleeps (trace (setupClientWithRetry_loop env maxRetries (seq i (S n)) st).2)
      = sleeps (trace st) ++ map backoff_delay (seq i n)
  ∧ client (setupClientWithRetry_loop env maxRetries (seq i (S n)) st).2
      = client st.
Proof.
  intros Hfails. revert i st. induction n as [|n IH]; intros i st Hsum.
  - cbn [seq]. rewrite setupClientWithRetry_loop_step, Hfails.
    rewrite bool_decide_false by lia. cbn.
    rewrite sleeps_app. cbn. done.
  - change (seq i (S (S n))) with (i :: seq (S i) (S n)).
    rewrite setupClientWithRetry_loop_step, Hfails.
    rewrite bool_decide_true by lia.
    destruct (IH (S i) (waited i error st) ltac:(lia)) as (-> & -> & ->).
    split; [reflexivity|]. split; [|reflexivity].
    unfold waited, after. cbn. rewrite sleeps_app. cbn.
    by rewrite <- app_assoc.
Qed.

(** X16. When every attempt fails the same way without leaving a trace of
    its own (as it does when a setting is missing), [setupClientWithRetry]
    with a limit between 1 and 23 gives up with that error after exactly
    [maxRetries - 1] waits of 1000, 2000, ... ms, and the client is left as
    it was.  (Up to this limit every delay is an exact integer that a timer
    honours.) *)
Theorem setupClientWithRetry_exhausted env (maxRetries : nat) st error :
  (∀ st', setupClient env st' = (Raised error, st')) →
  (1 ≤ maxRetries ≤ 23)%nat →
  (setupClientWithRetry env maxRetries st).1 = Raised error
  ∧ sleeps (trace (setupClientWithRetry env maxRetries st).2)
      = sleeps (trace st) ++ map backoff_delay (seq 0 (maxRetries - 1))
  ∧ client (setupClientWithRetry env maxRetries st).2 = client st.
Proof.
  intros Hfails Hlimit. unfold setupClientWithRetry.
  destruct maxRetries as [|n]; [lia|].
  replace (S n - 1) with n by lia.
  by apply setupClientWithRetry_loop_exhausted.
Qed.

(** ** The Eliza path, continued *)

(** X17. In the TRANSACTION/EVALUATION transition, when the connection is
    ensured, the pipeline replies with a non-empty text and the response
    memory is stored, the job receives exactly one call: the delivery of a
    deliverable of type "text" whose value is the reply text, unchanged. *)
Theorem reply_is_delivered env job (memo : AcpMemo) st
    (content : Content) (text : string) :
  job_phase job = TRANSACTION →
  memo_nextPhase memo = EVALUATION →
  let opened := after st [transaction_opened env job] in
  let connected := after opened [EvEnsureConnection job] in
  let emitted := after connected [EvEmitMessageReceived job (Some memo)] in
  ensureConnection_answer env (trace opened) job = Returned tt →
  pipeline_answer env (trace connected) job (Some memo) = Reply content →
  content_text content = Some text →
  text ≠ "" →
  createMemory_answer env (trace emitted) (js_String env (job_id job)) text
    = Returned tt →
  processJobWithElizaAI env job (Some memo) opened =
    (Returned
       (Some {| deliverable_type := "text"; deliverable_value := text |}),
     after emitted [EvCreateMemory (js_String env (job_id job)) text])
  ∧ job_calls (trace (processJobWithEliza env job (Some memo) st).2) =
      job_calls (trace st)
        ++ [Deliver {| deliverable_type := "text"; deliverable_value := text |}].
Proof.
  intros Hphase Hnext opened connected emitted Hconnect Hreply Htext Hnonempty
    Hmemory.
  assert (processJobWithElizaAI env job (Some memo) opened =
    (Returned
       (Some {| deliverable_type := "text"; deliverable_value := text |}),
     after emitted [EvCreateMemory (js_String env (job_id job)) text])) as HAI.
  { unfold processJobWithElizaAI, reply_callback. run.
    cbn in Hconnect. rewrite Hconnect. cbn in Hreply. rewrite Hreply.
    rewrite Htext. cbn. rewrite (bool_decide_false _ Hnonempty). cbn.
    cbn in Hmemory. rewrite Hmemory. same_history. }
  split; [exact HAI|].
  rewrite (transaction_phase_run _ _ _ _ Hphase Hnext).
  fold opened. rewrite HAI. cbv zeta.
  destruct (job_answer env _ job _) as [[]|raised|];
    cbn; rewrite !job_calls_app; cbn; rewrite ?app_nil_r; reflexivity.
Qed.

(** X18. In the TRANSACTION/EVALUATION transition, a reply without text
    (absent or empty) stores no response memory and makes the job receive
    exactly one call, the rejection with the reason "Unable to process job
    requirement". *)
Theorem empty_reply_is_rejected env job (memo : AcpMemo) st
    (content : Content) :
  job_phase job = TRANSACTION →
  memo_nextPhase memo = EVALUATION →
  let opened := after st [transaction_opened env job] in
  let connected := after opened [EvEnsureConnection job] in
  let emitted := after connected [EvEmitMessageReceived job (Some memo)] in
  ensureConnection_answer env (trace opened) job = Returned tt →
  pipeline_answer env (trace connected) job (Some memo) = Reply content →
  content_text content = None ∨ content_text content = Some "" →
  processJobWithElizaAI env job (Some memo) opened = (Returned None, emitted)
  ∧ job_calls (trace (processJobWithEliza env job (Some memo) st).2) =
      job_calls (trace st) ++ [Reject "Unable to process job requirement"].
Proof.
  intros Hphase Hnext opened connected emitted Hconnect Hreply Htext.
  assert (processJobWithElizaAI env job (Some memo) opened
            = (Returned None, emitted)) as HAI.
  { unfold processJobWithElizaAI, reply_callback. run.
    cbn in Hconnect. rewrite Hconnect. cbn in Hreply. rewrite Hreply.
    destruct Htext as [-> | ->]; reflexivity. }
  split; [exact HAI|].
  rewrite (transaction_phase_run _ _ _ _ Hphase Hnext).
  fold opened. rewrite HAI. cbv zeta.
  destruct (job_answer env _ job _) as [[]|raised|];
    cbn; rewrite !job_calls_app; cbn; rewrite ?app_nil_r; reflexivity.
Qed.

(** X19. There is no timeout on the reply.  In the TRANSACTION/EVALUATION
    transition, when the pipeline never calls the reply callback,
    [processJobWithEliza] stays pending for ever after the message has been
    emitted: the job is neither delivered nor rejected. *)
Theorem silent_pipeline_leaves_job_pending env job (memo : AcpMemo) st :
  job_phase job = TRANSACTION →
  memo_nextPhase memo = EVALUATION →
  let opened := after st [transaction_opened env job] in
  let connected := after opened [EvEnsureConnection job] in
  let emitted := after connected [EvEmitMessageReceived job (Some memo)] in
  ensureConnection_answer env (trace opened) job = Returned tt →
  pipeline_answer env (trace connected) job (Some memo) = NoReply →
  processJobWithEliza env job (Some memo) st = (Pending, emitted)
  ∧ job_calls (trace emitted) = job_calls (trace st).
Proof.
  intros Hphase Hnext opened connected emitted Hconnect Hreply.
  assert (processJobWithElizaAI env job (Some memo) opened
            = (Pending, emitted)) as HAI.
  { unfold processJobWithElizaAI. run.
    cbn in Hconnect. rewrite Hconnect. cbn in Hreply. rewrite Hreply.
    reflexivity. }
  split.
  - rewrite (transaction_phase_run _ _ _ _ Hphase Hnext).
    fold opened. by rewrite HAI.
  - cbn. rewrite !job_calls_app. cbn. by rewrite !app_nil_r.
Qed.

(** ** createNotification *)

(** Runs a notification symbolically as far as the goal determines it. *)
Ltac run_notification :=
  unfold createNotification, N_try_catch, on_service, call_createNotification,
    N_throw, getJobById;
  unfold mbind, N_bind, mret, N_ret; cbn.

(** X20. When the client rejects the job lookup, [createNotification] raises
    that same error and sends nothing; the error is logged twice, once by
    [getJobById] and once by [createNotification]. *)
Theorem createNotification_lookup_failure env (objects : JobObjects)
    (jobId content : string) (ns : Notifying) error :
  client (service_state ns) = true →
  client_answer env (trace (service_state ns))
    (GetJobById (js_Number env jobId)) = Raised error →
  createNotification env objects jobId content ns =
    (Raised error,
     {| service_state :=
          after (service_state ns)
            [ EvClient (GetJobById (js_Number env jobId));
              EvLog logger Error (Text "Error getting job by ID:") (Some error);
              EvLog logger Error (Text "Error creating notification:")
                (Some error) ];
        sent := sent ns |}).
Proof.
  intros Hclient Hanswer. run_notification.
  rewrite forward_run by exact Hclient. rewrite Hanswer. cbn.
  unfold log, record, after, with_trace. cbn. by rewrite <- app_assoc.
Qed.

(** X21. [createNotification] returns [null] without sending anything when
    the client finds no job (a falsy result), logging "Job not found: <id>",
    and when the job object has no [createNotification] method, logging a
    warning; in both cases the job lookup is the only call made. *)
Theorem createNotification_unavailable env (objects : JobObjects)
    (jobId content : string) (ns : Notifying) (job : JsValue) :
  client (service_state ns) = true →
  client_answer env (trace (service_state ns))
    (GetJobById (js_Number env jobId)) = Returned job →
  value_truthy objects job && has_createNotification objects job = false →
  createNotification env objects jobId content ns =
    (Returned None,
     {| service_state :=
          after (service_state ns)
            [ EvClient (GetJobById (js_Number env jobId));
              if value_truthy objects job
              then EvLog logger Warn
                     (Text "[AcpService] createNotification method is not available on AcpJob")
                     None
              else EvLog logger Error (Text ("Job not found: " +:+ jobId)) None ];
        sent := sent ns |}).
Proof.
  intros Hclient Hanswer Hunavailable. run_notification.
  rewrite forward_run by exact Hclient. rewrite Hanswer. cbn.
  destruct (value_truthy objects job); cbn in *.
  - rewrite Hunavailable. cbn.
    unfold log, record, after, with_trace. cbn. by rewrite <- app_assoc.
  - unfold log, record, after, with_trace. cbn. by rewrite <- app_assoc.
Qed.

(** X22. When the job is found and has the method, [createNotification]
    calls it exactly once, on that job object and with the given content.
    It returns [String(memoId)] for a truthy memo id and [null] for a falsy
    one (such as 0); if the call raises, the error is logged once and the
    same error is raised. *)
Theorem createNotification_sends env (objects : JobObjects)
    (jobId content : string) (ns : Notifying) (job : JsValue) :
  client (service_state ns) = true →
  client_answer env (trace (service_state ns))
    (GetJobById (js_Number env jobId)) = Returned job →
  value_truthy objects job = true →
  has_createNotification objects job = true →
  let looked_up :=
    after (service_state ns) [EvClient (GetJobById (js_Number env jobId))] in
  let notified := sent ns ++ [(job, content)] in
  createNotification env objects jobId content ns =
    match createNotification_answer objects (trace looked_up) (sent ns)
            job content with
    | Returned memoId =>
        (Returned (if value_truthy objects memoId
                   then Some (value_String objects memoId) else None),
         {| service_state := looked_up; sent := notified |})
    | Raised error =>
        (Raised error,
         {| service_state :=
              after looked_up
                [EvLog logger Error (Text "Error creating notification:")
                   (Some error)];
            sent := notified |})
    | Pending => (Pending, {| service_state := looked_up; sent := notified |})
    end.
Proof.
  intros Hclient Hanswer Htruthy Hmethod looked_up notified. run_notification.
  rewrite forward_run by exact Hclient. rewrite Hanswer. cbn.
  rewrite Htruthy, Hmethod. cbn.
  subst looked_up notified. unfold after, with_trace. cbn.
  destruct (createNotification_answer objects _ _ job content); reflexivity.
Qed.

End Further.

(** * Properties of the general query handler *)

Section QueryHandler.

Import ElizaHandler.

Context {JsNumber JsValue : Type}.

#[local] Abbreviation QueryEnv := (@QueryEnv JsNumber JsValue).
#[local] Abbreviation QueryEvent := (@QueryEvent JsValue).
#[local] Abbreviation Requirement := (@GeneralQueryRequirement JsValue).
#[local] Abbreviation AcpJob := (@AcpJob JsNumber JsValue).
#[local] Abbreviation AcpMemo := (@AcpMemo JsNumber JsValue).

Lemma toLowerCase_app (s t : string) :
  toLowerCase (s +:+ t) = toLowerCase s +:+ toLowerCase t.
Proof.
  induction s as [|c s IH]; [reflexivity|].
  change (String (lower_char c) (toLowerCase (s +:+ t))
          = String (lower_char c) (toLowerCase s +:+ toLowerCase t)).
  by rewrite IH.
Qed.

Lemma toLowerCase_length (s : string) :
  String.length (toLowerCase s) = String.length s.
Proof.
  induction s as [|c s IH]; [reflexivity|].
  cbn [String.length toLowerCase]. f_equal. exact IH.
Qed.

Lemma lower_char_idempotent (c : Ascii.ascii) :
  lower_char (lower_char c) = lower_char c.
Proof. destruct c as [[] [] [] [] [] [] [] []]; reflexivity. Qed.

Lemma toLowerCase_idempotent (s : string) :
  toLowerCase (toLowerCase s) = toLowerCase s.
Proof.
  induction s as [|c s IH]; [reflexivity|].
  cbn [toLowerCase]. by rewrite lower_char_idempotent, IH.
Qed.

Lemma prefix_app (s t : string) : String.prefix s (s +:+ t) = true.
Proof.
  induction s as [|c s IH]; [by destruct t|].
  change (String.prefix (String c s) (String c (s +:+ t)) = true).
  cbn [String.prefix].
  destruct (Ascii.ascii_dec c c); [exact IH|done].
Qed.

Lemma includes_app (before s after : string) :
  includes (before +:+ s +:+ after) s = true.
Proof.
  induction before as [|c before IH].
  - change (includes (s +:+ after) s = true).
    destruct s as [|c s]; [by destruct after|].
    change (includes (String c (s +:+ after)) (String c s) = true).
    cbn [includes].
    change (String c (s +:+ after)) with (String c s +:+ after).
    by rewrite prefix_app.
  - change (includes (String c (before +:+ s +:+ after)) s = true).
    cbn [includes]. rewrite IH. apply orb_true_r.
Qed.

(** X23. [canHandleQuery] refuses every query that contains one of the
    words "illegal", "harmful", "dangerous" anywhere, in any mix of upper
    and lower case and also inside a longer word, whatever the rest of the
    requirement is. *)
Theorem canHandleQuery_refuses_keyword (before word after : string)
    (context : option JsValue) (expectedFormat : option string) :
  ascii_only (before +:+ word +:+ after) →
  toLowerCase word ∈ unsupportedKeywords →
  canHandleQuery
    {| query := before +:+ word +:+ after; context := context;
       expectedFormat := expectedFormat |} = false.
Proof.
  intros _ Hword. unfold canHandleQuery. cbn [query].
  destruct (Z.ltb _ _); [reflexivity|].
  assert (existsb
            (λ keyword,
               includes (toLowerCase (before +:+ word +:+ after)) keyword)
            unsupportedKeywords = true) as ->; [|reflexivity].
  apply existsb_exists. exists (toLowerCase word). split.
  - by apply list_elem_of_In.
  - rewrite !toLowerCase_app. apply includes_app.
Qed.

(** X24. The decision of [canHandleQuery] does not depend on letter case:
    a query and its lower-case form get the same answer. *)
Theorem canHandleQuery_ignores_case (requirement : Requirement) :
  ascii_only (query requirement) →
  canHandleQuery
    {| query := toLowerCase (query requirement);
       context := context requirement;
       expectedFormat := expectedFormat requirement |}
    = canHandleQuery requirement.
Proof.
  intros _. unfold canHandleQuery. cbn [query].
  by rewrite toLowerCase_length, toLowerCase_idempotent.
Qed.

Implicit Types (env : QueryEnv) (job : AcpJob) (tr : list QueryEvent).

(** Runs the handler symbolically as far as the goal determines it. *)
Ltac run_query :=
  repeat (progress
    (unfold query_callback, formatElizaResponse, later, H_try_catch, H_throw,
       qjob, qcreateMemory, qlog, mbind, H_bind, mret, H_ret;
     cbn)).

Lemma query_job_calls_app (tr1 tr2 : list QueryEvent) :
  query_job_calls (tr1 ++ tr2) = query_job_calls tr1 ++ query_job_calls tr2.
Proof.
  induction tr1 as [|ev tr1 IH]; [reflexivity|].
  destruct ev; cbn; rewrite IH; reflexivity.
Qed.

(** X25. In the REQUEST/NEGOTIATION transition, for a query of ASCII
    characters, [handleGeneralQuery] decides by [canHandleQuery]: a refused
    requirement gets exactly one call, the rejection; a permitted one gets
    the accept call, followed by the requirement-creation call when the
    accept call returns. *)
Theorem handleGeneralQuery_request env job (memo : AcpMemo) tr :
  job_phase job = REQUEST →
  memo_nextPhase memo = NEGOTIATION →
  ascii_only (query (requirement_of env (job_requirement job))) →
  let accept := QAccept "Job requirement matches agent capability" in
  let require :=
    QCreateRequirement
      ("Job " +:+ q_String env (job_id job)
       +:+ " accepted, please make payment to proceed") in
  let reject := QReject "Job requirement does not meet agent capability" in
  query_job_calls (handleGeneralQuery env job (Some memo) tr).2 =
    query_job_calls tr ++
      (if canHandleQuery (requirement_of env (job_requirement job)) then
         accept ::
           match q_job_answer env tr accept with
           | Returned _ => [require]
           | _ => []
           end
       else [reject]).
Proof.
  intros Hphase Hnext _ accept require reject.
  unfold handleGeneralQuery. cbv zeta. cbn [fmap option_fmap option_map].
  rewrite Hphase, Hnext. rewrite bool_decide_true by done.
  destruct (canHandleQuery _); run_query.
  - fold accept. destruct (q_job_answer env tr accept) as [[]|error|]; cbn.
    + destruct (q_job_answer env _ _) as [[]|error|]; cbn;
        rewrite !query_job_calls_app; cbn; rewrite ?app_nil_r;
        by rewrite <- ?app_assoc.
    + by rewrite query_job_calls_app.
    + by rewrite query_job_calls_app.
  - destruct (q_job_answer env tr _) as [[]|error|]; cbn;
      rewrite !query_job_calls_app; cbn; by rewrite ?app_nil_r.
Qed.

(** X26. In the REQUEST/NEGOTIATION transition nothing catches a failure of
    the job object: for a query of ASCII characters, when the first call on
    the job (the accept call for a permitted requirement, the rejection
    otherwise) raises, [handleGeneralQuery] raises that same error and makes
    no other call. *)
Theorem handleGeneralQuery_request_failure env job (memo : AcpMemo) tr
    (error : Thrown) :
  job_phase job = REQUEST →
  memo_nextPhase memo = NEGOTIATION →
  ascii_only (query (requirement_of env (job_requirement job))) →
  let first :=
    if canHandleQuery (requirement_of env (job_requirement job))
    then QAccept "Job requirement matches agent capability"
    else QReject "Job requirement does not meet agent capability" in
  q_job_answer env tr first = Raised error →
  handleGeneralQuery env job (Some memo) tr = (Raised error, tr ++ [QJob first]).
Proof.
  intros Hphase Hnext _ first Hfails.
  unfold handleGeneralQuery. cbv zeta. cbn [fmap option_fmap option_map].
  rewrite Hphase, Hnext. rewrite bool_decide_true by done.
  subst first.
  destruct (canHandleQuery _); run_query; by rewrite Hfails.
Qed.

(** [handleGeneralQuery] in that transition, once the incoming message is
    stored and the pipeline has replied. *)
Lemma handleGeneralQuery_replied env job (memo : AcpMemo) tr
    (content : Content) :
  job_phase job = TRANSACTION →
  memo_nextPhase memo = EVALUATION →
  q_createMemory_answer env (query_started env job tr) IncomingMessage
    (query (requirement_of env (job_requirement job))) = Returned tt →
  q_pipeline_answer env (query_stored env job tr) = Reply content →
  handleGeneralQuery env job (Some memo) tr =
    (Returned tt,
     (query_callback env (q_String env (job_id job))
        (requirement_of env (job_requirement job)) content
        (query_emitted env job tr)).2).
Proof.
  intros Hphase Hnext Hstored Hreply.
  unfold handleGeneralQuery. cbv zeta. cbn [fmap option_fmap option_map].
  rewrite Hphase, Hnext.
  rewrite bool_decide_false by (intros [? _]; discriminate).
  rewrite bool_decide_true by done.
  unfold H_try_catch, qcreateMemory, qlog, mbind, H_bind. cbn.
  unfold query_started in Hstored. rewrite Hstored.
  unfold query_stored, query_started in Hreply. rewrite Hreply.
  reflexivity.
Qed.

(** X27. In the TRANSACTION/EVALUATION transition of [handleGeneralQuery],
    when the pipeline replies with a non-empty text, the expected format is
    not "json", and the delivery and the storing of the response succeed,
    the job receives exactly one call: the delivery of a payload of type
    "text" whose value is the reply text unchanged. *)
Theorem handleGeneralQuery_delivers env job (memo : AcpMemo) tr
    (content : Content) (text : string) :
  job_phase job = TRANSACTION →
  memo_nextPhase memo = EVALUATION →
  let requirement := requirement_of env (job_requirement job) in
  let heard :=
    query_emitted env job tr
      ++ [QLog Info ("[ACP Eliza] Eliza response: " +:+ text) None] in
  let payload :=
    {| payload_type := "text"; payload_value := TextValue text;
       payload_processedAt := now_iso env heard |} in
  let delivered :=
    heard ++ [QJob (QDeliver payload);
              QLog Success
                ("[ACP Eliza] Job " +:+ q_String env (job_id job)
                 +:+ " delivered successfully") None] in
  q_createMemory_answer env (query_started env job tr) IncomingMessage
    (query requirement) = Returned tt →
  q_pipeline_answer env (query_stored env job tr) = Reply content →
  content_text content = Some text →
  text ≠ "" →
  expectedFormat requirement ≠ Some "json" →
  q_job_answer env heard (QDeliver payload) = Returned tt →
  q_createMemory_answer env delivered ResponseMessage text = Returned tt →
  handleGeneralQuery env job (Some memo) tr =
    (Returned tt, delivered ++ [QCreateMemory ResponseMessage text])
  ∧ query_job_calls (handleGeneralQuery env job (Some memo) tr).2
      = query_job_calls tr ++ [QDeliver payload].
Proof.
  intros Hphase Hnext requirement heard payload delivered Hstored Hreply Htext
    Hnonempty Hformat Hdeliver Hresponse.
  assert (handleGeneralQuery env job (Some memo) tr =
            (Returned tt, delivered ++ [QCreateMemory ResponseMessage text]))
    as Hrun.
  { rewrite (handleGeneralQuery_replied _ _ _ _ content) by done.
    f_equal. fold requirement. run_query. rewrite Htext. cbn.
    rewrite (bool_decide_false _ Hnonempty). cbn.
    assert ((if truthy (expectedFormat requirement)
             then default "" (expectedFormat requirement) else "text")
            ≠ "json") as Hnot_json.
    { destruct (expectedFormat requirement) as [format|]; cbn; [|done].
      case_bool_decide; cbn; [done|]. intros ->. by apply Hformat. }
    rewrite (bool_decide_false _ Hnot_json). cbn.
    fold heard. fold payload. rewrite Hdeliver. cbn.
    rewrite <- (app_assoc heard). cbn [app]. fold delivered.
    by rewrite Hresponse. }
  split; [exact Hrun|]. rewrite Hrun. cbn [snd].
  subst delivered heard. unfold query_emitted, query_stored, query_started.
  rewrite !query_job_calls_app. cbn. by rewrite !app_nil_r.
Qed.

(** X28. Unlike the service's own Eliza path, [handleGeneralQuery] lets a
    reply without text pass: it writes a warning and makes no call on the
    job, which is neither delivered nor rejected. *)
Theorem handleGeneralQuery_empty_reply env job (memo : AcpMemo) tr
    (content : Content) :
  job_phase job = TRANSACTION →
  memo_nextPhase memo = EVALUATION →
  q_createMemory_answer env (query_started env job tr) IncomingMessage
    (query (requirement_of env (job_requirement job))) = Returned tt →
  q_pipeline_answer env (query_stored env job tr) = Reply content →
  content_text content = None ∨ content_text content = Some "" →
  handleGeneralQuery env job (Some memo) tr =
    (Returned tt,
     query_emitted env job tr
       ++ [QLog Warn "[ACP Eliza] No text content in response" None])
  ∧ query_job_calls (handleGeneralQuery env job (Some memo) tr).2
      = query_job_calls tr.
Proof.
  intros Hphase Hnext Hstored Hreply Htext.
  assert (handleGeneralQuery env job (Some memo) tr =
            (Returned tt,
             query_emitted env job tr
               ++ [QLog Warn "[ACP Eliza] No text content in response" None]))
    as Hrun.
  { rewrite (handleGeneralQuery_replied _ _ _ _ content) by done.
    f_equal. run_query. destruct Htext as [-> | ->]; reflexivity. }
  split; [exact Hrun|]. rewrite Hrun. cbn [snd].
  unfold query_emitted, query_stored, query_started.
  rewrite !query_job_calls_app. cbn. by rewrite !app_nil_r.
Qed.

(** X29. In [handleGeneralQuery] a failure after the delivery undoes
    nothing: when the job has been delivered and storing the response memory
    then raises, the callback rejects the job it has just delivered, so the
    job receives the delivery followed by a rejection with the reason "Error
    processing response". *)
Theorem handleGeneralQuery_rejects_after_delivery env job (memo : AcpMemo) tr
    (content : Content) (text : string) (error : Thrown) :
  job_phase job = TRANSACTION →
  memo_nextPhase memo = EVALUATION →
  let requirement := requirement_of env (job_requirement job) in
  let heard :=
    query_emitted env job tr
      ++ [QLog Info ("[ACP Eliza] Eliza response: " +:+ text) None] in
  let payload :=
    {| payload_type := "text"; payload_value := TextValue text;
       payload_processedAt := now_iso env heard |} in
  let delivered :=
    heard ++ [QJob (QDeliver payload);
              QLog Success
                ("[ACP Eliza] Job " +:+ q_String env (job_id job)
                 +:+ " delivered successfully") None] in
  q_createMemory_answer env (query_started env job tr) IncomingMessage
    (query requirement) = Returned tt →
  q_pipeline_answer env (query_stored env job tr) = Reply content →
  content_text content = Some text →
  text ≠ "" →
  expectedFormat requirement ≠ Some "json" →
  q_job_answer env heard (QDeliver payload) = Returned tt →
  q_createMemory_answer env delivered ResponseMessage text = Raised error →
  handleGeneralQuery env job (Some memo) tr =
    (Returned tt,
     delivered
       ++ [QCreateMemory ResponseMessage text;
           QLog Error "[ACP Eliza] Error in callback:" (Some error);
           QJob (QReject "Error processing response")])
  ∧ query_job_calls (handleGeneralQuery env job (Some memo) tr).2
      = query_job_calls tr
          ++ [QDeliver payload; QReject "Error processing response"].
Proof.
  intros Hphase Hnext requirement heard payload delivered Hstored Hreply Htext
    Hnonempty Hformat Hdeliver Hresponse.
  assert (handleGeneralQuery env job (Some memo) tr =
            (Returned tt,
             delivered
               ++ [QCreateMemory ResponseMessage text;
                   QLog Error "[ACP Eliza] Error in callback:" (Some error);
                   QJob (QReject "Error processing response")])) as Hrun.
  { rewrite (handleGeneralQuery_replied _ _ _ _ content) by done.
    f_equal. fold requirement. run_query. rewrite Htext. cbn.
    rewrite (bool_decide_false _ Hnonempty). cbn.
    assert ((if truthy (expectedFormat requirement)
             then default "" (expectedFormat requirement) else "text")
            ≠ "json") as Hnot_json.
    { destruct (expectedFormat requirement) as [format|]; cbn; [|done].
      case_bool_decide; cbn; [done|]. intros ->. by apply Hformat. }
    rewrite (bool_decide_false _ Hnot_json). cbn.
    fold heard. fold payload. rewrite Hdeliver. cbn.
    rewrite <- (app_assoc heard). cbn [app]. fold delivered.
    rewrite Hresponse. cbn. clearbody delivered.
    rewrite <- !app_assoc. reflexivity. }
  split; [exact Hrun|]. rewrite Hrun. cbn [snd].
  subst delivered heard. unfold query_emitted, query_stored, query_started.
  rewrite !query_job_calls_app. cbn.
  rewrite ?app_nil_r, <- ?app_assoc. reflexivity.
Qed.

(** X30. In the TRANSACTION/EVALUATION transition of [handleGeneralQuery] a
    failure of the submission is answered with a rejection: when storing the
    incoming message raises (nothing is emitted then), or when it is stored
    and [emitEvent] throws, the error is logged with the job's id and the job
    receives exactly one call, the rejection with the reason "Unable to
    process job requirement"; the handler ends as that call does. *)
Theorem handleGeneralQuery_submission_failure env job (memo : AcpMemo) tr
    (error : Thrown) :
  job_phase job = TRANSACTION →
  memo_nextPhase memo = EVALUATION →
  let requirement := requirement_of env (job_requirement job) in
  let logged :=
    QLog Error
      ("[ACP Eliza] Error processing job " +:+ q_String env (job_id job)
       +:+ ":") (Some error) in
  let reject := QReject "Unable to process job requirement" in
  let stored_answer :=
    q_createMemory_answer env (query_started env job tr) IncomingMessage
      (query requirement) in
  stored_answer = Raised error
  ∨ (stored_answer = Returned tt
     ∧ q_pipeline_answer env (query_stored env job tr) = EmitThrows error) →
  let reached :=
    match stored_answer with
    | Returned _ => query_emitted env job tr
    | _ => query_stored env job tr
    end in
  handleGeneralQuery env job (Some memo) tr =
    (q_job_answer env (reached ++ [logged]) reject,
     reached ++ [logged; QJob reject])
  ∧ query_job_calls (handleGeneralQuery env job (Some memo) tr).2
      = query_job_calls tr ++ [reject].
Proof.
  intros Hphase Hnext requirement logged reject stored_answer Hfailure reached.
  match goal with |- ?equation ∧ _ =>
    assert equation as Hrun; [|split; [exact Hrun|]] end.
  { unfold handleGeneralQuery. cbv zeta. cbn [fmap option_fmap option_map].
    rewrite Hphase, Hnext.
    rewrite bool_decide_false by (intros [? _]; discriminate).
    rewrite bool_decide_true by done.
    unfold H_try_catch, H_throw, qcreateMemory, qjob, qlog, mbind, H_bind. cbn.
    subst reached stored_answer requirement.
    unfold query_emitted, query_stored, query_started in *.
    destruct Hfailure as [Hstored | [Hstored Hemit]]; rewrite Hstored.
    - cbn. rewrite <- !app_assoc. reflexivity.
    - rewrite Hemit. cbn. rewrite <- !app_assoc. reflexivity. }
  rewrite Hrun. cbn [snd]. subst reached.
  unfold query_emitted, query_stored, query_started.
  destruct stored_answer as [[]|e|];
    rewrite !query_job_calls_app; cbn;
    rewrite ?app_nil_r, <- ?app_assoc; reflexivity.
Qed.

End QueryHandler.

(** * The further properties on concrete runs *)

Import Cases.

(** X2 on a run: a TRANSACTION job arrives without a memo. *)
Lemma processJobWithEliza_unhandled_witness :
  processJobWithEliza (env_of calm) (job TRANSACTION (Some "chat")) None service
    = (Returned tt,
       after service
         [EvLog logger Warn (UnhandledPhase "5" TRANSACTION None) None]).
Proof.
  apply (processJobWithEliza_unhandled (env_of calm) checkElizaCapability
           (job TRANSACTION (Some "chat")) None service); discriminate.
Defined.

(** X3 on a run: the client is down, so the router raises and nothing is
    routed. *)
Lemma handleNewTask_raises_only_on_arrival_witness :
  let job := job REQUEST (Some "chat") in
  let memo := memo NEGOTIATION in
  (handleNewTask (env_of client_down) job (Some memo) service).1
    = Raised network_down
  ∧ handleNewTask (env_of client_down) job (Some memo) service
      = arrival (env_of client_down) job (Some memo) service.
Proof.
  split; [reflexivity|].
  apply (handleNewTask_raises_only_on_arrival (env_of client_down)
           (job REQUEST (Some "chat")) (Some (memo NEGOTIATION)) service
           network_down).
  reflexivity.
Defined.

(** X4 on a run: the client is down while a job of a configured type
    arrives. *)
Lemma handleNewTask_lookup_failure_witness :
  let job := job TRANSACTION (Some "dca") in
  handleNewTask (env_of client_down) job None service =
    (Raised network_down,
     after service
       [ EvLog logger Info (OnNewTaskDebug job None) None;
         EvClient (GetAccountByJobId (Some 5%Z));
         EvLog logger Error (Text "Error getting account by job ID:")
           (Some network_down) ]).
Proof.
  apply (handleNewTask_lookup_failure (env_of client_down)
           (job TRANSACTION (Some "dca")) None service network_down);
    reflexivity.
Defined.

(** X5 on a run: the entry of ["broken"] has no handler. *)
Lemma handleNewTask_missing_handler_witness :
  let job := job REQUEST (Some "broken") in
  careless_registry !! "broken"
    = Some {| handlerType := "predetermined"; handler := None |}
  ∧ warnings (trace (handleNewTask (env_of calm) job None careless_service).2)
      = [Text "[handleNewTask] No handler function provided for predetermined job type: broken"]
  ∧ (handleNewTask (env_of calm) job None careless_service).1 = Returned tt.
Proof.
  split; [vm_compute; reflexivity|].
  rewrite (handleNewTask_missing_handler (env_of calm)
             (job REQUEST (Some "broken")) None careless_service "account#1"
             "broken" {| handlerType := "predetermined"; handler := None |}).
  - split; reflexivity.
  - reflexivity.
  - reflexivity.
  - reflexivity.
  - discriminate.
  - vm_compute. reflexivity.
  - reflexivity.
  - reflexivity.
Defined.

(** X6 on a run: the registry has an entry under the empty name, and a job
    with the empty name arrives. *)
Lemma handleNewTask_nameless_witness :
  let job := job REQUEST (Some "") in
  careless_registry !! "" = Some {| handlerType := "eliza"; handler := None |}
  ∧ warnings
      (trace (handleNewTask (env_of calm) job (Some (memo NEGOTIATION))
                careless_service).2)
      = [Text "[handleNewTask] No configuration found for job type: "]
  ∧ job_calls
      (trace (handleNewTask (env_of calm) job (Some (memo NEGOTIATION))
                careless_service).2) = [].
Proof.
  split; [vm_compute; reflexivity|].
  rewrite (handleNewTask_nameless (env_of calm) (job REQUEST (Some ""))
             (Some (memo NEGOTIATION)) careless_service "account#1").
  - split; reflexivity.
  - reflexivity.
  - reflexivity.
  - right. reflexivity.
Defined.

(** X7 on a run: the name ["toString"] is registered with a handler that
    accepts the job, and a job of that name arrives. *)
Lemma register_then_route_witness :
  let update : gmap string JobTypeConfig :=
    {[ "toString" := {| handlerType := "predetermined"; handler := Some 1 |} ]} in
  let accepting : Scenario :=
    {| on_client := on_client calm; on_job := on_job calm;
       on_connect := on_connect calm; on_emit := on_emit calm;
       on_memory := on_memory calm; on_build := on_build calm;
       on_handler := λ _, record (EvJob (Some 5%Z) (Accept "Position accepted")) |} in
  job_calls
    (trace ((updateJobTypeRegistry update ;;
             handleNewTask (env_of accepting) (job REQUEST (Some "toString"))
               None) service).2)
    = [Accept "Position accepted"].
Proof.
  intros update accepting.
  rewrite (register_then_route (env_of accepting)
             (job REQUEST (Some "toString")) None service update "account#1"
             "toString" {| handlerType := "predetermined"; handler := Some 1 |}
             1
             (after
                (arrived (env_of accepting) (job REQUEST (Some "toString"))
                   None "account#1" (updateJobTypeRegistry update service).2)
                [EvJob (Some 5%Z) (Accept "Position accepted")])).
  - reflexivity.
  - reflexivity.
  - reflexivity.
  - reflexivity.
  - discriminate.
  - vm_compute. reflexivity.
  - reflexivity.
  - reflexivity.
  - reflexivity.
Defined.

(** X8 on a run: two updates that both configure ["dca"]. *)
Lemma updateJobTypeRegistry_composes_witness :
  let first : gmap string JobTypeConfig :=
    {[ "dca" := {| handlerType := "eliza"; handler := None |};
       "swap" := {| handlerType := "eliza"; handler := None |} ]} in
  let second : gmap string JobTypeConfig :=
    {[ "dca" := {| handlerType := "predetermined"; handler := Some 2 |} ]} in
  let twice :=
    ((updateJobTypeRegistry first ;; updateJobTypeRegistry second) service).2 in
  second !! "dca" = Some {| handlerType := "predetermined"; handler := Some 2 |}
  ∧ jobTypeRegistry twice !! "dca"
      = Some {| handlerType := "predetermined"; handler := Some 2 |}.
Proof.
  intros first second twice.
  split; [vm_compute; reflexivity|].
  destruct (updateJobTypeRegistry_composes service first second)
    as (_ & Hlater & _).
  apply Hlater. vm_compute. reflexivity.
Defined.

(** X10 on a run: a query on a service that was never connected. *)
Lemma forwarding_without_client_witness :
  client unconnected_service = false
  ∧ ∃ error : Thrown,
      (run_forwarding (env_of calm) (OpGetActiveJobs None None)
         unconnected_service).1 = Raised error
      ∧ client_calls
          (trace (run_forwarding (env_of calm) (OpGetActiveJobs None None)
                    unconnected_service).2) = [].
Proof.
  split; [reflexivity|].
  destruct (forwarding_without_client (env_of calm) (OpGetActiveJobs None None)
              unconnected_service eq_refl) as (error & message & Hrun & Hcalls).
  exists error. rewrite Hcalls. rewrite Hrun. split; reflexivity.
Defined.

(** X11 on a run: no setting is configured, so the private key is reported. *)
Lemma setupClient_requires_settings_witness :
  truthy (getSetting unconfigured "ACP_WALLET_PRIVATE_KEY") = false
  ∧ setupClient unconfigured service
      = (Raised (ErrorObj "ACP_WALLET_PRIVATE_KEY is required"), service).
Proof.
  split; [reflexivity|].
  destruct (setupClient_requires_settings unconfigured service)
    as (Hkey & _ & _).
  apply Hkey. reflexivity.
Defined.

(** X12 on two runs: an attempt that fails while the contract client is
    built, and one that succeeds. *)
Lemma setupClient_assigns_on_success_witness :
  (setupClient (env_of build_fails) unconnected_service).1
    = Raised network_down
  ∧ client (setupClient (env_of build_fails) unconnected_service).2 = false
  ∧ (setupClient (env_of calm) unconnected_service).1 = Returned tt
  ∧ client (setupClient (env_of calm) unconnected_service).2 = true.
Proof.
  destruct (setupClient_assigns_on_success (env_of build_fails)
              unconnected_service) as (_ & _ & Hfailed).
  destruct (setupClient_assigns_on_success (env_of calm) unconnected_service)
    as (_ & Hassigned & _).
  split; [reflexivity|]. split; [by apply Hfailed|].
  split; [reflexivity|]. by apply Hassigned.
Defined.

(** X13 on a run: the contract client is built at the third attempt. *)
Lemma start_returns_connected_witness :
  let config :=
    Some {| cfg_jobTypeRegistry := Some registry |} in
  (start (env_of build_third) config []).1 = Returned tt
  ∧ client (start (env_of build_third) config []).2 = true
  ∧ jobTypeRegistry (start (env_of build_third) config []).2 !! "chat"
      = Some {| handlerType := "eliza"; handler := None |}.
Proof.
  intros config.
  destruct (start_returns_connected (env_of build_third) config []
              (start (env_of build_third) config []).2) as [Hclient Hregistry].
  { vm_compute. reflexivity. }
  split; [vm_compute; reflexivity|]. split; [exact Hclient|].
  rewrite Hregistry. vm_compute. reflexivity.
Defined.

(** X14 on two runs: no setting is configured, so the private key is named;
    only the agent address is missing, so it is named. *)
Lemma start_missing_setting_witness :
  (start unconfigured None []).1 =
    Raised (ErrorObj
              "Failed to register service virtuals-acp: ACP_WALLET_PRIVATE_KEY is required")
  ∧ sleeps (trace (start unconfigured None []).2) = [1000%Z; 2000%Z]
  ∧ contract_client_builds (trace (start unconfigured None []).2) = 0
  ∧ (start addressless None []).1 =
      Raised (ErrorObj
                "Failed to register service virtuals-acp: ACP_AGENT_WALLET_ADDRESS is required").
Proof.
  rewrite (start_missing_setting unconfigured None [] eq_refl).
  rewrite (start_missing_setting addressless None [] eq_refl).
  repeat split; reflexivity.
Defined.

(** X15 on a run: the limit is 5 and the contract client is built at the
    third attempt. *)
Lemma setupClientWithRetry_waits_witness :
  ∃ k : nat,
    (k ≤ 4)%nat
    ∧ sleeps (trace (setupClientWithRetry (env_of build_third) 5 service).2)
        = map backoff_delay (seq 0 k)
    ∧ Forall (λ ms, (1000 ≤ ms ≤ 2147483647)%Z) (map backoff_delay (seq 0 k)).
Proof.
  destruct (setupClientWithRetry_waits (env_of build_third) 5 service)
    as (k & Hk & Hsleeps & Hhonoured & _); [lia|].
  exists k. split; [exact Hk|]. split; [exact Hsleeps|exact Hhonoured].
Defined.

(** X16 on a run: no setting is configured and the limit is 4. *)
Lemma setupClientWithRetry_exhausted_witness :
  (setupClientWithRetry unconfigured 4 service).1
    = Raised (ErrorObj "ACP_WALLET_PRIVATE_KEY is required")
  ∧ sleeps (trace (setupClientWithRetry unconfigured 4 service).2)
      = [1000%Z; 2000%Z; 4000%Z].
Proof.
  destruct (setupClientWithRetry_exhausted unconfigured 4 service
              (ErrorObj "ACP_WALLET_PRIVATE_KEY is required"))
    as (Hraised & Hsleeps & _).
  - intros st'. reflexivity.
  - lia.
  - split; [exact Hraised|]. rewrite Hsleeps. reflexivity.
Defined.

(** X17 on a run: the pipeline replies "done". *)
Lemma reply_is_delivered_witness :
  let job := job TRANSACTION (Some "chat") in
  job_calls
    (trace (processJobWithEliza (env_of calm) job (Some (memo EVALUATION))
              service).2)
    = [Deliver {| deliverable_type := "text"; deliverable_value := "done" |}].
Proof.
  destruct (reply_is_delivered (env_of calm) (job TRANSACTION (Some "chat"))
              (memo EVALUATION) service {| content_text := Some "done" |}
              "done") as [_ Hcalls];
    [reflexivity | reflexivity | reflexivity | reflexivity | reflexivity
    | discriminate | reflexivity |].
  exact Hcalls.
Defined.

(** X18 on a run: the pipeline replies with an empty text. *)
Lemma empty_reply_is_rejected_witness :
  let job := job TRANSACTION (Some "chat") in
  job_calls
    (trace (processJobWithEliza (env_of speechless) job (Some (memo EVALUATION))
              service).2)
    = [Reject "Unable to process job requirement"].
Proof.
  destruct (empty_reply_is_rejected (env_of speechless)
              (job TRANSACTION (Some "chat")) (memo EVALUATION) service
              {| content_text := Some "" |}) as [_ Hcalls];
    [reflexivity | reflexivity | reflexivity | reflexivity
    | right; reflexivity |].
  exact Hcalls.
Defined.

(** X19 on a run: the pipeline never replies. *)
Lemma silent_pipeline_leaves_job_pending_witness :
  let job := job TRANSACTION (Some "chat") in
  (processJobWithEliza (env_of silent) job (Some (memo EVALUATION)) service).1
    = Pending
  ∧ job_calls
      (trace (processJobWithEliza (env_of silent) job (Some (memo EVALUATION))
                service).2) = [].
Proof.
  destruct (silent_pipeline_leaves_job_pending (env_of silent)
              (job TRANSACTION (Some "chat")) (memo EVALUATION) service)
    as [Hrun Hcalls];
    [reflexivity | reflexivity | reflexivity | reflexivity |].
  cbv zeta. rewrite Hrun. split; [reflexivity|exact Hcalls].
Defined.

(** X20 on a run: the client is down. *)
Lemma createNotification_lookup_failure_witness :
  let run := createNotification (env_of client_down) objects "5" "hello"
               (notifying service) in
  run.1 = Raised network_down
  ∧ sent run.2 = []
  ∧ trace (service_state run.2) =
      [ EvClient (GetJobById (Some 5%Z));
        EvLog logger Error (Text "Error getting job by ID:")
          (Some network_down);
        EvLog logger Error (Text "Error creating notification:")
          (Some network_down) ].
Proof.
  cbv zeta.
  rewrite (createNotification_lookup_failure (env_of client_down) objects "5"
             "hello" (notifying service) network_down);
    [|reflexivity..].
  repeat split; reflexivity.
Defined.

(** X21 on two runs: the client finds no job, and it finds a job object
    without the method. *)
Lemma createNotification_unavailable_witness :
  let missing := createNotification (env_of (found_job "")) objects "5" "hello"
                   (notifying service) in
  let plain := createNotification (env_of (found_job "job:plain")) objects "5"
                 "hello" (notifying service) in
  missing.1 = Returned None ∧ sent missing.2 = []
  ∧ plain.1 = Returned None ∧ sent plain.2 = [].
Proof.
  cbv zeta.
  rewrite (createNotification_unavailable (env_of (found_job "")) objects "5"
             "hello" (notifying service) ""); [|reflexivity..].
  rewrite (createNotification_unavailable (env_of (found_job "job:plain"))
             objects "5" "hello" (notifying service) "job:plain");
    [|reflexivity..].
  repeat split; reflexivity.
Defined.

(** X22 on two runs: a notification whose memo id is truthy, and one whose
    memo id is falsy. *)
Lemma createNotification_sends_witness :
  let told := createNotification (env_of (found_job "job:5")) objects "5"
                "hello" (notifying service) in
  let mute := createNotification (env_of (found_job "job:5")) objects "5" ""
                (notifying service) in
  told.1 = Returned (Some "hello") ∧ sent told.2 = [("job:5", "hello")]
  ∧ mute.1 = Returned None ∧ sent mute.2 = [("job:5", "")].
Proof.
  cbv zeta.
  rewrite (createNotification_sends (env_of (found_job "job:5")) objects "5"
             "hello" (notifying service) "job:5"); [|reflexivity..].
  rewrite (createNotification_sends (env_of (found_job "job:5")) objects "5"
             "" (notifying service) "job:5"); [|reflexivity..].
  repeat split; reflexivity.
Defined.

(** X23 on a query: the word in upper case, inside a sentence. *)
Lemma canHandleQuery_refuses_keyword_witness :
  ElizaHandler.canHandleQuery (JsValue := string)
    {| ElizaHandler.query := "is this ILLEGAL in France?";
       ElizaHandler.context := None;
       ElizaHandler.expectedFormat := None |} = false.
Proof.
  apply (canHandleQuery_refuses_keyword (JsValue := string)
           "is this " "ILLEGAL" " in France?" None None).
  - reflexivity.
  - vm_compute. set_solver.
Defined.

(** X24 on a query with capitals. *)
Lemma canHandleQuery_ignores_case_witness :
  ElizaHandler.canHandleQuery (JsValue := string)
    {| ElizaHandler.query := "what is the price of eth?";
       ElizaHandler.context := None;
       ElizaHandler.expectedFormat := None |}
  = ElizaHandler.canHandleQuery (JsValue := string)
      {| ElizaHandler.query := "What is the price of ETH?";
         ElizaHandler.context := None;
         ElizaHandler.expectedFormat := None |}.
Proof.
  apply (canHandleQuery_ignores_case (JsValue := string)
           {| ElizaHandler.query := "What is the price of ETH?";
              ElizaHandler.context := None;
              ElizaHandler.expectedFormat := None |}).
  reflexivity.
Defined.

(** X25 on two runs: a harmless query and a refused one. *)
Lemma handleGeneralQuery_request_witness :
  let env := query_env (λ _, Returned tt) (λ _, Returned tt) NoReply in
  ElizaHandler.query_job_calls
    (ElizaHandler.handleGeneralQuery env (query_job REQUEST "what is 2+2?")
       (Some (memo NEGOTIATION)) []).2
    = [ ElizaHandler.QAccept "Job requirement matches agent capability";
        ElizaHandler.QCreateRequirement
          "Job 5 accepted, please make payment to proceed" ]
  ∧ ElizaHandler.query_job_calls
      (ElizaHandler.handleGeneralQuery env
         (query_job REQUEST "a Dangerous stunt") (Some (memo NEGOTIATION)) []).2
    = [ ElizaHandler.QReject "Job requirement does not meet agent capability" ].
Proof.
  intros env. split.
  - apply (handleGeneralQuery_request env (query_job REQUEST "what is 2+2?")
             (memo NEGOTIATION) []); reflexivity.
  - apply (handleGeneralQuery_request env
             (query_job REQUEST "a Dangerous stunt") (memo NEGOTIATION) []);
      reflexivity.
Defined.

(** X26 on a run: the accept call rejects. *)
Lemma handleGeneralQuery_request_failure_witness :
  let env :=
    query_env
      (λ call, match call with
               | ElizaHandler.QAccept _ => Raised network_down
               | _ => Returned tt
               end)
      (λ _, Returned tt) NoReply in
  ElizaHandler.handleGeneralQuery env (query_job REQUEST "what is 2+2?")
    (Some (memo NEGOTIATION)) []
    = (Raised network_down,
       [ElizaHandler.QJob
          (ElizaHandler.QAccept "Job requirement matches agent capability")]).
Proof.
  intros env.
  apply (handleGeneralQuery_request_failure env
           (query_job REQUEST "what is 2+2?") (memo NEGOTIATION) []
           network_down); reflexivity.
Defined.

(** X27 on a run: the pipeline replies "4". *)
Lemma handleGeneralQuery_delivers_witness :
  let env := query_env (λ _, Returned tt) (λ _, Returned tt)
               (Reply {| content_text := Some "4" |}) in
  ElizaHandler.query_job_calls
    (ElizaHandler.handleGeneralQuery env (query_job TRANSACTION "what is 2+2?")
       (Some (memo EVALUATION)) []).2
    = [ ElizaHandler.QDeliver
          {| ElizaHandler.payload_type := "text";
             ElizaHandler.payload_value := ElizaHandler.TextValue "4";
             ElizaHandler.payload_processedAt := "2025-01-01T00:00:00.000Z" |} ].
Proof.
  intros env.
  destruct (handleGeneralQuery_delivers env
              (query_job TRANSACTION "what is 2+2?") (memo EVALUATION) []
              {| content_text := Some "4" |} "4") as [_ Hcalls];
    [reflexivity | reflexivity | reflexivity | reflexivity | reflexivity
    | discriminate | discriminate | reflexivity | reflexivity |].
  exact Hcalls.
Defined.

(** X28 on a run: the pipeline replies without text. *)
Lemma handleGeneralQuery_empty_reply_witness :
  let env := query_env (λ _, Returned tt) (λ _, Returned tt)
               (Reply {| content_text := None |}) in
  ElizaHandler.query_job_calls
    (ElizaHandler.handleGeneralQuery env (query_job TRANSACTION "what is 2+2?")
       (Some (memo EVALUATION)) []).2 = [].
Proof.
  intros env.
  destruct (handleGeneralQuery_empty_reply env
              (query_job TRANSACTION "what is 2+2?") (memo EVALUATION) []
              {| content_text := None |}) as [_ Hcalls];
    [reflexivity | reflexivity | reflexivity | reflexivity
    | left; reflexivity |].
  exact Hcalls.
Defined.

(** X29 on a run: the response memory cannot be stored. *)
Lemma handleGeneralQuery_rejects_after_delivery_witness :
  let env :=
    query_env (λ _, Returned tt)
      (λ kind, match kind with
               | ElizaHandler.IncomingMessage => Returned tt
               | ElizaHandler.ResponseMessage => Raised network_down
               end)
      (Reply {| content_text := Some "4" |}) in
  ElizaHandler.query_job_calls
    (ElizaHandler.handleGeneralQuery env (query_job TRANSACTION "what is 2+2?")
       (Some (memo EVALUATION)) []).2
    = [ ElizaHandler.QDeliver
          {| ElizaHandler.payload_type := "text";
             ElizaHandler.payload_value := ElizaHandler.TextValue "4";
             ElizaHandler.payload_processedAt := "2025-01-01T00:00:00.000Z" |};
        ElizaHandler.QReject "Error processing response" ].
Proof.
  intros env.
  destruct (handleGeneralQuery_rejects_after_delivery env
              (query_job TRANSACTION "what is 2+2?") (memo EVALUATION) []
              {| content_text := Some "4" |} "4" network_down)
    as [_ Hcalls];
    [reflexivity | reflexivity | reflexivity | reflexivity | reflexivity
    | discriminate | discriminate | reflexivity | reflexivity |].
  exact Hcalls.
Defined.

(** X30 on a run: the incoming message cannot be stored. *)
Lemma handleGeneralQuery_submission_failure_witness :
  let env := query_env (λ _, Returned tt) (λ _, Raised network_down) NoReply in
  ElizaHandler.handleGeneralQuery env (query_job TRANSACTION "what is 2+2?")
    (Some (memo EVALUATION)) []
    = (Returned tt,
       [ ElizaHandler.QLog Info
           "[ACP Eliza] Processing query job 5 with Eliza" None;
         ElizaHandler.QCreateMemory ElizaHandler.IncomingMessage "what is 2+2?";
         ElizaHandler.QLog Error "[ACP Eliza] Error processing job 5:"
           (Some network_down);
         ElizaHandler.QJob
           (ElizaHandler.QReject "Unable to process job requirement") ]).
Proof.
  intros env.
  destruct (handleGeneralQuery_submission_failure env
              (query_job TRANSACTION "what is 2+2?") (memo EVALUATION) []
              network_down) as [Hrun _];
    [reflexivity | reflexivity | left; reflexivity |].
  rewrite Hrun. reflexivity.
Defined.
